(** * claude-swarm: the orchestration core (state model, gateway, executors)

    A shallow embedding of [claude_swarm/agents/base.py] (the Result model,
    the output parser and [BaseAgent.invoke]) and of
    [claude_swarm/orchestrator.py] (Task, SwarmState, persistence,
    [invoke_agent], [run_pipeline], [plan_feature], [execute_plan]).

    Modelling conventions.
    - Python values that come out of [json.loads] keep their dynamic type:
      they are [json] values, and the Python operations applied to them
      ([len], slicing, iteration, [+], [str], truthiness) are written out
      with the exceptions Python raises on the wrong types.
    - Python exceptions are the [Raise] branch of [res]; a call that raises
      leaves the orchestrator state as it was when the exception occurred.
    - Strings are Rocq byte strings; literals with non-ASCII symbols hold
      their UTF-8 bytes.
    - The file system under [.swarm/state] is an association list from
      session id to the JSON document [json.dumps] writes; [json.loads]
      of that text gives the document back.
    - [datetime.now()] is a fixed stamp [now]. *)

From Stdlib Require Import String Ascii List ZArith Bool Lia Permutation Sorted.
Import ListNotations.
Open Scope string_scope.
Open Scope list_scope.

Notation "a ^^ b" := (String.append a b) (at level 60, right associativity).

(** ** Python values and exceptions *)

Set Warnings "-register-all".

Inductive json : Type :=
| JNull
| JBool (b : bool)
| JNum (z : Z)
| JStr (s : string)
| JList (l : list json)
| JObj (kv : list (string * json)).

Inductive exn : Type := KeyError | ValueError | TypeError | AttributeError.

Inductive res (A : Type) : Type :=
| Ok (a : A)
| Raise (e : exn).
Arguments Ok {A} a.
Arguments Raise {A} e.

Definition bind {A B} (m : res A) (k : A -> res B) : res B :=
  match m with Ok a => k a | Raise e => Raise e end.

Notation "'let*' x := m 'in' k" := (bind m (fun x => k))
  (at level 200, x name, m at level 100, k at level 200).

(** [dict.get(k)] on a Python dict kept in insertion order. *)
Fixpoint dict_get (d : list (string * json)) (k : string) : option json :=
  match d with
  | [] => None
  | (k', v) :: r => if String.eqb k k' then Some v else dict_get r k
  end.

Definition dict_get_default (d : list (string * json)) (k : string) (dflt : json) : json :=
  match dict_get d k with Some v => v | None => dflt end.

(** [d[k] = v]: an existing key keeps its place, a new key goes last. *)
Fixpoint dict_set {V} (d : list (string * V)) (k : string) (v : V) : list (string * V) :=
  match d with
  | [] => [(k, v)]
  | (k', v') :: r => if String.eqb k k' then (k', v) :: r else (k', v') :: dict_set r k v
  end.

Fixpoint dict_lookup {V} (d : list (string * V)) (k : string) : option V :=
  match d with
  | [] => None
  | (k', v) :: r => if String.eqb k k' then Some v else dict_lookup r k
  end.

(** [d.update(p)] *)
Definition dict_update (d p : list (string * json)) : list (string * json) :=
  fold_left (fun acc kv => dict_set acc (fst kv) (snd kv)) p d.

(** Truthiness ([bool(x)]). *)
Definition truthy (j : json) : bool :=
  match j with
  | JNull => false
  | JBool b => b
  | JNum z => negb (Z.eqb z 0)
  | JStr s => negb (String.eqb s "")
  | JList l => match l with [] => false | _ => true end
  | JObj kv => match kv with [] => false | _ => true end
  end.

Fixpoint chars (s : string) : list string :=
  match s with
  | EmptyString => []
  | String c r => String c EmptyString :: chars r
  end.

(** [iter(x)]: lists give their items, strings their characters, dicts
    their keys; numbers, booleans and [None] are not iterable. *)
Definition py_iter (j : json) : res (list json) :=
  match j with
  | JList l => Ok l
  | JStr s => Ok (map JStr (chars s))
  | JObj kv => Ok (map (fun p => JStr (fst p)) kv)
  | _ => Raise TypeError
  end.

Definition py_len (j : json) : res nat :=
  match j with
  | JList l => Ok (List.length l)
  | JStr s => Ok (String.length s)
  | JObj kv => Ok (List.length kv)
  | _ => Raise TypeError
  end.

(** [x[:n]] *)
Definition py_prefix (n : nat) (j : json) : res json :=
  match j with
  | JList l => Ok (JList (firstn n l))
  | JStr s => Ok (JStr (substring 0 n s))
  | _ => Raise TypeError
  end.

(** [x + y] on the values a JSON document can hold. *)
Definition py_add (x y : json) : res json :=
  match x, y with
  | JList a, JList b => Ok (JList (a ++ b))
  | JStr a, JStr b => Ok (JStr (a ^^ b))
  | JNum a, JNum b => Ok (JNum (a + b))
  | _, _ => Raise TypeError
  end.

Fixpoint all_str (l : list json) : res (list string) :=
  match l with
  | [] => Ok []
  | JStr s :: r => let* r' := all_str r in Ok (s :: r')
  | _ :: _ => Raise TypeError
  end.

Fixpoint join (sep : string) (l : list string) : string :=
  match l with
  | [] => ""
  | [x] => x
  | x :: r => x ^^ sep ^^ join sep r
  end.

(** [sep.join(x)] *)
Definition py_join (sep : string) (j : json) : res string :=
  let* items := py_iter j in
  let* ss := all_str items in
  Ok (join sep ss).

(** Decimal rendering of integers ([str(n)], [f"{n:03d}"]). *)
Fixpoint dec_aux (fuel n : nat) (acc : string) : string :=
  match fuel with
  | O => acc
  | S f =>
      let acc' := String (ascii_of_nat (48 + n mod 10)) acc in
      if Nat.ltb n 10 then acc' else dec_aux f (n / 10) acc'
  end.

Definition nat_to_dec (n : nat) : string := dec_aux (S n) n "".

Definition z_to_dec (z : Z) : string :=
  if Z.ltb z 0 then "-" ^^ nat_to_dec (Z.to_nat (- z)) else nat_to_dec (Z.to_nat z).

Fixpoint zeros (k : nat) : string :=
  match k with O => "" | S k' => "0" ^^ zeros k' end.

Definition pad3 (n : nat) : string :=
  let s := nat_to_dec n in zeros (3 - String.length s) ^^ s.

(** [str(x)] (and [repr] inside containers; string escapes are not modelled). *)
Fixpoint py_repr (j : json) : string :=
  match j with
  | JNull => "None"
  | JBool true => "True"
  | JBool false => "False"
  | JNum z => z_to_dec z
  | JStr s => "'" ^^ s ^^ "'"
  | JList l =>
      "[" ^^ (fix go (l : list json) : string :=
                match l with
                | [] => ""
                | [x] => py_repr x
                | x :: r => py_repr x ^^ ", " ^^ go r
                end) l ^^ "]"
  | JObj kv =>
      "{" ^^ (fix go (kv : list (string * json)) : string :=
                match kv with
                | [] => ""
                | [(k, v)] => "'" ^^ k ^^ "': " ^^ py_repr v
                | (k, v) :: r => "'" ^^ k ^^ "': " ^^ py_repr v ^^ ", " ^^ go r
                end) kv ^^ "}"
  end.

Definition py_str (j : json) : string :=
  match j with JStr s => s | _ => py_repr j end.

(** ASCII [str.upper], [str.lower], [str.strip], [str.split], [str.replace]. *)
Definition map_string (f : ascii -> ascii) : string -> string :=
  fix go s := match s with EmptyString => EmptyString | String c r => String (f c) (go r) end.

Definition upper_char (c : ascii) : ascii :=
  let n := nat_of_ascii c in if Nat.leb 97 n && Nat.leb n 122 then ascii_of_nat (n - 32) else c.
Definition lower_char (c : ascii) : ascii :=
  let n := nat_of_ascii c in if Nat.leb 65 n && Nat.leb n 90 then ascii_of_nat (n + 32) else c.

Definition upper := map_string upper_char.
Definition lower := map_string lower_char.

Definition is_space (c : ascii) : bool :=
  let n := nat_of_ascii c in Nat.eqb n 32 || (Nat.leb 9 n && Nat.leb n 13).

Fixpoint lstrip (s : string) : string :=
  match s with
  | String c r => if is_space c then lstrip r else s
  | EmptyString => EmptyString
  end.

Fixpoint rev_string (s : string) : string :=
  match s with EmptyString => EmptyString | String c r => rev_string r ^^ String c EmptyString end.

Definition strip (s : string) : string := rev_string (lstrip (rev_string (lstrip s))).

(** [s.split(c)] on a one-character separator. *)
Fixpoint split_on (c : ascii) (s : string) : list string :=
  match s with
  | EmptyString => [""]
  | String d r =>
      let parts := split_on c r in
      if Ascii.eqb c d then "" :: parts
      else match parts with
           | p :: ps => String d p :: ps
           | [] => [String d EmptyString]
           end
  end.

(** [s.split(c, 1)] for a separator that occurs in [s]. *)
Fixpoint split_once (c : ascii) (s : string) : string * string :=
  match s with
  | EmptyString => ("", "")
  | String d r =>
      if Ascii.eqb c d then ("", r)
      else let (a, b) := split_once c r in (String d a, b)
  end.

Fixpoint has_char (c : ascii) (s : string) : bool :=
  match s with EmptyString => false | String d r => Ascii.eqb c d || has_char c r end.

Definition replace_char (a b : ascii) : string -> string :=
  map_string (fun c => if Ascii.eqb c a then b else c).

(** [s[-n:]] *)
Definition suffix (n : nat) (s : string) : string :=
  substring (String.length s - n) n s.

(** ** [agents/base.py]: agent kinds and the Result model *)

Inductive AgentType : Type :=
| ORCHESTRATOR | CODER | REVIEWER | SECURITY | TESTER | DOCS | ARCHITECT
| REFACTOR | DEBUGGER | MOBILE_UI | MOBILE_PERF | AWS | INFRA.

Definition agent_value (a : AgentType) : string :=
  match a with
  | ORCHESTRATOR => "orchestrator" | CODER => "coder" | REVIEWER => "reviewer"
  | SECURITY => "security" | TESTER => "tester" | DOCS => "docs"
  | ARCHITECT => "architect" | REFACTOR => "refactor" | DEBUGGER => "debugger"
  | MOBILE_UI => "mobile_ui" | MOBILE_PERF => "mobile_perf" | AWS => "aws"
  | INFRA => "infra"
  end.

Definition all_agent_types : list AgentType :=
  [ORCHESTRATOR; CODER; REVIEWER; SECURITY; TESTER; DOCS; ARCHITECT;
   REFACTOR; DEBUGGER; MOBILE_UI; MOBILE_PERF; AWS; INFRA].

(** [AgentType(v)]: lookup by value, [ValueError] for anything else. *)
Definition AgentType_of (v : json) : res AgentType :=
  match v with
  | JStr s =>
      match find (fun a => String.eqb (agent_value a) s) all_agent_types with
      | Some a => Ok a
      | None => Raise ValueError
      end
  | _ => Raise ValueError
  end.

Record AgentResult : Type := mkAgentResult {
  ar_agent_type : AgentType;
  ar_task_id : string;
  ar_success : bool;
  ar_summary : json;
  ar_files_changed : json;
  ar_files_created : json;
  ar_issues_found : json;
  ar_suggestions : json;
  ar_blocked : json;
  ar_block_reason : json;
  ar_raw_output : option string;
  ar_execution_time : Z;
  ar_tokens_used : option Z
}.

Definition opt_num (o : option Z) : json :=
  match o with Some z => JNum z | None => JNull end.

(** [AgentResult.to_dict] *)
Definition result_to_dict (r : AgentResult) : json :=
  JObj [("agent_type", JStr (agent_value (ar_agent_type r)));
        ("task_id", JStr (ar_task_id r));
        ("success", JBool (ar_success r));
        ("summary", ar_summary r);
        ("files_changed", ar_files_changed r);
        ("files_created", ar_files_created r);
        ("issues_found", ar_issues_found r);
        ("suggestions", ar_suggestions r);
        ("blocked", ar_blocked r);
        ("block_reason", ar_block_reason r);
        ("execution_time", JNum (ar_execution_time r));
        ("tokens_used", opt_num (ar_tokens_used r))].

(** [sum(1 for i in issues if i.get("severity") == sev)]: every item must
    be a dict, otherwise [i.get] raises [AttributeError]. *)
Fixpoint count_severity (sev : string) (items : list json) : res nat :=
  match items with
  | [] => Ok 0
  | JObj kv :: r =>
      let* n := count_severity sev r in
      match dict_get kv "severity" with
      | Some (JStr s) => Ok (if String.eqb s sev then S n else n)
      | _ => Ok n
      end
  | _ :: _ => Raise AttributeError
  end.

(** [AgentResult.to_summary_string]: the one-line digest. *)
Definition to_summary_string (r : AgentResult) : res string :=
  let p0 := ["[" ^^ upper (agent_value (ar_agent_type r)) ^^ "]";
             if ar_success r then "✓" else "✗"] in
  let* p1 :=
    if truthy (ar_files_changed r) then
      let* first3 := py_prefix 3 (ar_files_changed r) in
      let* shown := py_join ", " first3 in
      let* n := py_len (ar_files_changed r) in
      Ok (p0 ++ ["Changed: " ^^ shown]
             ++ (if Nat.ltb 3 n then ["(+" ^^ nat_to_dec (n - 3) ^^ " more)"] else []))
    else Ok p0 in
  let* p2 :=
    if truthy (ar_issues_found r) then
      let* items := py_iter (ar_issues_found r) in
      let* critical := count_severity "critical" items in
      let* warnings := count_severity "warning" items in
      Ok (p1 ++ (if Nat.eqb critical 0 then [] else ["🔴 " ^^ nat_to_dec critical ^^ " critical"])
             ++ (if Nat.eqb warnings 0 then [] else ["🟡 " ^^ nat_to_dec warnings ^^ " warnings"]))
    else Ok p1 in
  let p3 := if truthy (ar_blocked r)
            then p2 ++ ["⛔ BLOCKED: " ^^ py_str (ar_block_reason r)] else p2 in
  Ok (join " | " p3).

(** ** [BaseAgent._parse_output]

    The parser tries, in order, [json.loads(output)], the fenced
    [```json] block (regex, then [json.loads] of the group), and the fenced
    [```summary] block.  What these recognisers find in [output] is the
    [recognised] record; the rest of the function is written out. *)
Record recognised : Type := mkRecognised {
  rc_loads : option json;                                (** [json.loads(output)]; [None]: JSONDecodeError *)
  rc_json_block : option (option (list (string * json))); (** regex match, then its [json.loads] *)
  rc_summary_block : option string                        (** group 1 of the summary regex *)
}.

Definition parse_init : list (string * json) :=
  [("summary", JStr ""); ("files_changed", JList []); ("files_created", JList []);
   ("issues", JList []); ("suggestions", JList []); ("blocked", JBool false);
   ("block_reason", JNull)].

(** One [key: value] line of the summary block. *)
Definition summary_line (acc : list (string * json)) (line : string) : list (string * json) :=
  if has_char ":" line then
    let (k, v) := split_once ":" line in
    let key := replace_char " " "_" (lower (strip k)) in
    let value := strip v in
    if String.eqb key "files_changed" || String.eqb key "files_created" then
      dict_set acc key (JList (map JStr (filter (fun f => negb (String.eqb f ""))
                                              (map strip (split_on "," value)))))
    else if String.eqb key "blocked" then
      let lv := lower value in
      dict_set acc "blocked" (JBool (String.eqb lv "yes" || String.eqb lv "true" || String.eqb lv "1"))
    else if String.eqb key "block_reason" then
      dict_set acc "block_reason" (JStr value)
    else acc
  else acc.

Definition parse_output (rc : recognised) (output : string) : list (string * json) :=
  let result := parse_init in
  let cli :=
    match rc_loads rc with
    | Some (JObj raw) =>
        match dict_get raw "type" with
        | Some (JStr "result") =>
            let subtype := dict_get_default raw "subtype" (JStr "") in
            Some
              (match subtype with
               | JStr "error_max_turns" =>
                   dict_set (dict_set (dict_set result "summary" (JStr "Agent reached maximum turns limit"))
                                      "blocked" (JBool true))
                            "block_reason" (JStr "Max turns reached - task may be too complex")
               | JStr "error" =>
                   let err := dict_get_default raw "error" (JStr "Unknown error") in
                   dict_set (dict_set (dict_set result "summary" (JStr ("Agent error: " ^^ py_str err)))
                                      "blocked" (JBool true))
                            "block_reason" err
               | JStr "interactive" =>
                   dict_set result "summary" (dict_get_default raw "message" (JStr "Running in separate terminal"))
               | _ =>
                   dict_set result "summary" (dict_get_default raw "result" (JStr "Task completed"))
               end)
        | _ => None
        end
    | _ => None
    end in
  match cli with
  | Some d => d
  | None =>
      match rc_json_block rc with
      | Some (Some parsed) => dict_update result parsed
      | _ =>
          match rc_summary_block rc with
          | Some text =>
              fold_left summary_line (split_on "010"%char text) (dict_set result "summary" (JStr text))
          | None =>
              dict_set result "summary"
                (JStr (if Nat.ltb 1500 (String.length output) then suffix 1500 output else output))
          end
      end
  end.

(** ** [BaseAgent._invoke_background] and [BaseAgent.invoke] *)

(** How the [claude] subprocess ends. *)
Inductive proc_outcome : Type :=
| Exited (stdout : string) (returncode : Z)
| TimeoutExpired
| FileNotFound
| OtherError (message : string).

Definition invoke_background (o : proc_outcome) : string * bool :=
  match o with
  | Exited out rc => (out, Z.eqb rc 0)
  | TimeoutExpired => ("Agent timed out after 10 minutes", false)
  | FileNotFound => ("Claude CLI not found. Please install claude-code.", false)
  | OtherError m => ("Error invoking agent: " ^^ m, false)
  end.

(** [BaseAgent.invoke] in background mode; [task_id] and [exec_time] are
    the timestamp-and-hash id and the elapsed time it computes. *)
Definition base_invoke (at_ : AgentType) (task_id : string) (exec_time : Z)
    (o : proc_outcome) (rc : recognised) : AgentResult :=
  let (output, success) := invoke_background o in
  let parsed := parse_output rc output in
  let blocked := dict_get_default parsed "blocked" (JBool false) in
  {| ar_agent_type := at_;
     ar_task_id := task_id;
     ar_success := success && negb (truthy blocked);
     ar_summary := dict_get_default parsed "summary" (JStr (substring 0 1000 output));
     ar_files_changed := dict_get_default parsed "files_changed" (JList []);
     ar_files_created := dict_get_default parsed "files_created" (JList []);
     ar_issues_found := dict_get_default parsed "issues" (JList []);
     ar_suggestions := dict_get_default parsed "suggestions" (JList []);
     ar_blocked := blocked;
     ar_block_reason := dict_get_default parsed "block_reason" JNull;
     ar_raw_output := if success then None else Some output;
     ar_execution_time := exec_time;
     ar_tokens_used := None |}.

(** ** [orchestrator.py]: tasks and session state *)

Inductive TaskStatus : Type := PENDING | RUNNING | COMPLETED | FAILED | BLOCKED.

Definition status_value (s : TaskStatus) : string :=
  match s with
  | PENDING => "pending" | RUNNING => "running" | COMPLETED => "completed"
  | FAILED => "failed" | BLOCKED => "blocked"
  end.

Definition status_eqb (a b : TaskStatus) : bool :=
  String.eqb (status_value a) (status_value b).

(** [TaskStatus(v)] *)
Definition TaskStatus_of (v : json) : res TaskStatus :=
  match v with
  | JStr s =>
      match find (fun t => String.eqb (status_value t) s)
                 [PENDING; RUNNING; COMPLETED; FAILED; BLOCKED] with
      | Some t => Ok t
      | None => Raise ValueError
      end
  | _ => Raise ValueError
  end.

(** [Task]: the fields filled from planner JSON ([description],
    [context_files], [depends_on]) keep their JSON value. *)
Record Task : Type := mkTask {
  t_id : string;
  t_agent_type : AgentType;
  t_description : json;
  t_context_files : json;
  t_depends_on : json;
  t_status : TaskStatus;
  t_result : option AgentResult
}.

Definition set_status (s : TaskStatus) (t : Task) : Task :=
  {| t_id := t_id t; t_agent_type := t_agent_type t; t_description := t_description t;
     t_context_files := t_context_files t; t_depends_on := t_depends_on t;
     t_status := s; t_result := t_result t |}.

Definition set_result (r : AgentResult) (t : Task) : Task :=
  {| t_id := t_id t; t_agent_type := t_agent_type t; t_description := t_description t;
     t_context_files := t_context_files t; t_depends_on := t_depends_on t;
     t_status := t_status t; t_result := Some r |}.

(** [Task.to_dict] (a dataclass instance is always truthy, so
    [self.result.to_dict() if self.result else None] tests for [None]). *)
Definition task_to_dict (t : Task) : json :=
  JObj [("id", JStr (t_id t));
        ("agent_type", JStr (agent_value (t_agent_type t)));
        ("description", t_description t);
        ("context_files", t_context_files t);
        ("depends_on", t_depends_on t);
        ("status", JStr (status_value (t_status t)));
        ("result", match t_result t with Some r => result_to_dict r | None => JNull end)].

Record SwarmState : Type := mkSwarmState {
  session_id : string;
  feature_description : string;
  created_at : string;
  updated_at : string;
  st_status : string;
  architecture : json;
  tasks : list Task;
  completed_summaries : list string;
  blockers : list string
}.

(** [SwarmState.to_dict] *)
Definition swarm_to_dict (s : SwarmState) : json :=
  JObj [("session_id", JStr (session_id s));
        ("feature_description", JStr (feature_description s));
        ("created_at", JStr (created_at s));
        ("updated_at", JStr (updated_at s));
        ("status", JStr (st_status s));
        ("architecture", architecture s);
        ("tasks", JList (map task_to_dict (tasks s)));
        ("completed_summaries", JList (map JStr (completed_summaries s)));
        ("blockers", JList (map JStr (blockers s)))].

(** [d[k]] *)
Definition subscript (d : json) (k : string) : res json :=
  match d with
  | JObj kv => match dict_get kv k with Some v => Ok v | None => Raise KeyError end
  | _ => Raise TypeError
  end.

Definition get_default (d : json) (k : string) (dflt : json) : res json :=
  match d with
  | JObj kv => Ok (dict_get_default kv k dflt)
  | _ => Raise AttributeError
  end.

(** The [str] and [list[str]] fields of the dataclasses are read back as
    such; a document whose field has another JSON type (one [to_dict] never
    writes) is refused with [TypeError]. *)
Definition as_str (j : json) : res string :=
  match j with JStr s => Ok s | _ => Raise TypeError end.

Definition as_str_list (j : json) : res (list string) :=
  match j with JList l => all_str l | _ => Raise TypeError end.

(** The loop body of [SwarmState.from_dict]: note that the ["result"]
    entry of the task document is not read. *)
Definition task_from_dict (t : json) : res Task :=
  let* id := subscript t "id" in
  let* id := as_str id in
  let* at_ := subscript t "agent_type" in
  let* at_ := AgentType_of at_ in
  let* descr := subscript t "description" in
  let* cf := get_default t "context_files" (JList []) in
  let* deps := get_default t "depends_on" (JList []) in
  let* st := subscript t "status" in
  let* st := TaskStatus_of st in
  Ok {| t_id := id; t_agent_type := at_; t_description := descr;
        t_context_files := cf; t_depends_on := deps; t_status := st; t_result := None |}.

Fixpoint map_res {A B} (f : A -> res B) (l : list A) : res (list B) :=
  match l with
  | [] => Ok []
  | x :: r => let* y := f x in let* ys := map_res f r in Ok (y :: ys)
  end.

(** [SwarmState.from_dict] *)
Definition swarm_from_dict (data : json) : res SwarmState :=
  let* ts := get_default data "tasks" (JList []) in
  let* ts := py_iter ts in
  let* ts := map_res task_from_dict ts in
  let* sid := subscript data "session_id" in
  let* sid := as_str sid in
  let* fd := subscript data "feature_description" in
  let* fd := as_str fd in
  let* ca := subscript data "created_at" in
  let* ca := as_str ca in
  let* ua := subscript data "updated_at" in
  let* ua := as_str ua in
  let* stt := get_default data "status" (JStr "active") in
  let* stt := as_str stt in
  let* arch := get_default data "architecture" JNull in
  let* cs := get_default data "completed_summaries" (JList []) in
  let* cs := as_str_list cs in
  let* bl := get_default data "blockers" (JList []) in
  let* bl := as_str_list bl in
  Ok {| session_id := sid; feature_description := fd; created_at := ca;
        updated_at := ua; st_status := stt; architecture := arch; tasks := ts;
        completed_summaries := cs; blockers := bl |}.

(** ** The orchestrator: configuration, state, persistence *)

Definition nl : string := String "010" EmptyString.

(** [s[-k:]] on a list. *)
Definition lastn {A} (k : nat) (l : list A) : list A := skipn (List.length l - k) l.

(** [AgentConfig], [OrchestratorConfig], [SwarmConfig]: the fields the
    orchestration core reads. *)
Record AgentConfig : Type := mkAgentConfig { enabled : bool }.

Record OrchestratorConfig : Type := mkOrchestratorConfig {
  parallel_reviews : bool;
  require_security_pass : bool;
  require_tests : bool
}.

Record SwarmConfig : Type := mkSwarmConfig {
  orchestrator : OrchestratorConfig;
  agents : list (string * AgentConfig)
}.

(** [AgentRegistry._agents]: [create] raises [ValueError] for the rest. *)
Definition registered (a : AgentType) : bool :=
  match a with
  | CODER | REVIEWER | SECURITY | TESTER | DOCS | ARCHITECT | DEBUGGER
  | MOBILE_UI | AWS => true
  | _ => false
  end.

(** The orchestrator object: [self.state], the state directory, the task
    counter, and the log of invocations handed to the external agent. *)
Record Orch : Type := mkOrch {
  o_state : option SwarmState;
  o_files : list (string * json);
  o_counter : nat;
  o_calls : list (AgentType * string)
}.

Definition with_state (s : option SwarmState) (o : Orch) : Orch :=
  mkOrch s (o_files o) (o_counter o) (o_calls o).

Definition set_updated (u : string) (s : SwarmState) : SwarmState :=
  mkSwarmState (session_id s) (feature_description s) (created_at s) u (st_status s)
    (architecture s) (tasks s) (completed_summaries s) (blockers s).

Definition set_tasks (ts : list Task) (s : SwarmState) : SwarmState :=
  mkSwarmState (session_id s) (feature_description s) (created_at s) (updated_at s)
    (st_status s) (architecture s) ts (completed_summaries s) (blockers s).

Definition set_architecture (a : json) (s : SwarmState) : SwarmState :=
  mkSwarmState (session_id s) (feature_description s) (created_at s) (updated_at s)
    (st_status s) a (tasks s) (completed_summaries s) (blockers s).

Definition set_history (cs bl : list string) (s : SwarmState) : SwarmState :=
  mkSwarmState (session_id s) (feature_description s) (created_at s) (updated_at s)
    (st_status s) (architecture s) (tasks s) cs bl.

(** The orchestrator's methods run in a state and exception monad: state
    changes made before an exception stay, as Python's mutations do. *)
Definition M (A : Type) : Type := Orch -> res A * Orch.

Definition ret {A} (a : A) : M A := fun o => (Ok a, o).
Definition throw {A} (e : exn) : M A := fun o => (Raise e, o).
Definition lift {A} (r : res A) : M A := fun o => (r, o).
Definition mbind {A B} (m : M A) (k : A -> M B) : M B :=
  fun o => match m o with
           | (Ok a, o') => k a o'
           | (Raise e, o') => (Raise e, o')
           end.
Definition get_orch : M Orch := fun o => (Ok o, o).
Definition put_orch (o' : Orch) : M unit := fun _ => (Ok tt, o').

Notation "x <- m ;; k" := (mbind m (fun x => k))
  (at level 61, m at next level, right associativity).
Notation "' p <- m ;; k" := (mbind m (fun x => match x with p => k end))
  (at level 61, p pattern, m at next level, right associativity).

Section Orchestrator.

Variable config : SwarmConfig.

(** [datetime.now().isoformat()] and the [strftime] session stamp. *)
Variable now : string.
Variable session_stamp : string.

(** The external agent, [AgentRegistry.create(...).invoke(task,
    context_files, additional_context)], for registered kinds; its first
    argument is the number of earlier invocations, so that successive
    calls may answer differently. *)
Variable agent_invoke : nat -> AgentType -> string -> option json -> option string -> AgentResult.

(** [Orchestrator._save_state] *)
Definition save_state (o : Orch) : Orch :=
  match o_state o with
  | Some st =>
      let st' := set_updated now st in
      mkOrch (Some st') (dict_set (o_files o) (session_id st') (swarm_to_dict st'))
             (o_counter o) (o_calls o)
  | None => o
  end.

(** [Orchestrator._load_state] *)
Definition load_state (sid : string) (o : Orch) : res (option SwarmState) :=
  match dict_lookup (o_files o) sid with
  | Some data => let* s := swarm_from_dict data in Ok (Some s)
  | None => Ok None
  end.

(** [Orchestrator.resume_session] *)
Definition resume_session (sid : string) : M bool :=
  fun o => match load_state sid o with
           | Ok (Some st) => (Ok true, with_state (Some st) o)
           | Ok None => (Ok false, o)
           | Raise e => (Raise e, o)
           end.

(** [Orchestrator.start_session] *)
Definition start_session (fd : string) : M string :=
  fun o =>
    let st := mkSwarmState session_stamp fd now now "active" JNull [] [] [] in
    (Ok session_stamp, save_state (with_state (Some st) o)).

(** The context block built from the last five digests. *)
Definition with_recent (st : option SwarmState) (addl : option string) : option string :=
  match st with
  | Some s =>
      match completed_summaries s with
      | [] => addl
      | cs =>
          let recent := join nl (lastn 5 cs) in
          match addl with
          | Some a =>
              if String.eqb a "" then Some ("## Recent Activity" ^^ nl ^^ recent)
              else Some (a ^^ nl ^^ nl ^^ "## Recent Activity" ^^ nl ^^ recent)
          | None => Some ("## Recent Activity" ^^ nl ^^ recent)
          end
      end
  | None => addl
  end.

(** The history update of [invoke_agent]: append the digest, keep the
    last 20, and record a blocker. *)
Definition trim20 (cs : list string) : list string :=
  if Nat.ltb 20 (List.length cs) then lastn 20 cs else cs.

Definition blocker_line (a : AgentType) (r : AgentResult) : string :=
  agent_value a ^^ ": " ^^ py_str (ar_block_reason r).

(** [Orchestrator.invoke_agent]: the Gateway. *)
Definition invoke_agent (a : AgentType) (task_arg : json) (cf : option json)
    (addl : option string) : M AgentResult :=
  fun o =>
    if negb (registered a) then (Raise ValueError, o) else
    (* [BaseAgent.invoke] starts with [task.encode()] *)
    match task_arg with
    | JStr task =>
    let r := agent_invoke (List.length (o_calls o)) a task cf (with_recent (o_state o) addl) in
    let o1 := mkOrch (o_state o) (o_files o) (o_counter o) (o_calls o ++ [(a, task)]) in
    match o_state o1 with
    | None => (Ok r, o1)
    | Some st =>
        match to_summary_string r with
        | Raise e => (Raise e, o1)
        | Ok line =>
            let cs := trim20 (completed_summaries st ++ [line]) in
            let bl := if truthy (ar_blocked r) then blockers st ++ [blocker_line a r]
                      else blockers st in
            (Ok r, save_state (with_state (Some (set_history cs bl st)) o1))
        end
    end
    | _ => (Raise AttributeError, o)
    end.

(** [config.agents.get(name)] is [None] or enabled. *)
Definition stage_enabled (name : string) : bool :=
  match dict_lookup (agents config) name with
  | Some c => enabled c
  | None => true
  end.

Fixpoint run_reviews (l : list (string * AgentType)) (text : string) (changed : json)
    (results : list (string * AgentResult)) : M (list (string * AgentResult)) :=
  match l with
  | [] => ret results
  | (name, a) :: rest =>
      r <- invoke_agent a (JStr text) (Some changed) None ;;
      run_reviews rest text changed (dict_set results name r)
  end.

(** [Orchestrator.run_pipeline].  The two review agents of the parallel
    branch are run one after the other, in the order [sec_first] picks
    (the order in which [as_completed] hands them back). *)
Definition run_pipeline (task : string) (cf : option json)
    (skip_security skip_tests skip_review sec_first : bool)
  : M (list (string * AgentResult)) :=
  code_result <- invoke_agent CODER (JStr task) cf None ;;
  let results := [("coder", code_result)] in
  if negb (ar_success code_result) then ret results else
  changed <- lift (py_add (ar_files_changed code_result) (ar_files_created code_result)) ;;
  let code_summary := ar_summary code_result in
  let review_tasks :=
    (if negb skip_security && stage_enabled "security" then [("security", SECURITY)] else [])
    ++ (if negb skip_review && stage_enabled "reviewer" then [("review", REVIEWER)] else []) in
  let order :=
    match review_tasks with
    | [] => []
    | _ => if parallel_reviews (orchestrator config) && negb sec_first
           then rev review_tasks else review_tasks
    end in
  results <- run_reviews order ("Review these changes:" ^^ nl ^^ py_str code_summary)
                         changed results ;;
  let security_blocked :=
    match dict_lookup results "security" with
    | Some r => truthy (ar_blocked r)
    | None => false
    end in
  if security_blocked && require_security_pass (orchestrator config) then ret results else
  if negb skip_tests && require_tests (orchestrator config) && stage_enabled "tester" then
    test_result <- invoke_agent TESTER (JStr ("Write tests for these changes:" ^^ nl ^^ py_str code_summary))
                                (Some changed) None ;;
    ret (dict_set results "tester" test_result)
  else ret results.

(** [Orchestrator._generate_task_id] *)
Definition generate_task_id : M string :=
  fun o =>
    let n := S (o_counter o) in
    (Ok ("task_" ^^ pad3 n), mkOrch (o_state o) (o_files o) n (o_calls o)).

(** One entry of the planner's ["tasks"] array. *)
Definition plan_task (t : json) : M Task :=
  id <- generate_task_id ;;
  a <- lift (let* v := get_default t "agent" (JStr "coder") in AgentType_of v) ;;
  descr <- lift (get_default t "task" (JStr "")) ;;
  cf <- lift (get_default t "context_files" (JList [])) ;;
  deps <- lift (get_default t "depends_on" (JList [])) ;;
  ret (mkTask id a descr cf deps PENDING None).

Fixpoint plan_tasks (l : list json) : M (list Task) :=
  match l with
  | [] => ret []
  | t :: r => x <- plan_task t ;; xs <- plan_tasks r ;; ret (x :: xs)
  end.

(** The [try] block of [plan_feature]: [tasks_match s] is what
    [re.search(r'"tasks"\s*:\s*\[(.*?)\]', s, re.DOTALL)] followed by
    [json.loads] of the bracketed group gives ([None]: no match;
    [Some None]: [json.loads] raised). *)
Definition parse_plan (tasks_match : string -> option (option (list json))) (summary : json)
  : M (list Task) :=
  match summary with
  | JStr s =>
      match tasks_match s with
      | None => ret []
      | Some None => throw ValueError
      | Some (Some l) => plan_tasks l
      end
  | _ => throw TypeError
  end.

(** The [except] branch: the fixed four-task plan. *)
Definition fallback_plan (fd : string) : M (list Task) :=
  i1 <- generate_task_id ;;
  i2 <- generate_task_id ;;
  i3 <- generate_task_id ;;
  i4 <- generate_task_id ;;
  ret [mkTask i1 CODER (JStr ("Implement: " ^^ fd)) (JList []) (JList []) PENDING None;
       mkTask i2 SECURITY (JStr "Security review") (JList []) (JList [JStr "task_001"]) PENDING None;
       mkTask i3 REVIEWER (JStr "Code review") (JList []) (JList [JStr "task_001"]) PENDING None;
       mkTask i4 TESTER (JStr "Write tests") (JList []) (JList [JStr "task_001"]) PENDING None].

Definition try_except {A} (m : M A) (handler : M A) : M A :=
  fun o => match m o with
           | (Ok a, o') => (Ok a, o')
           | (Raise _, o') => handler o'
           end.

Definition modify_state (f : SwarmState -> SwarmState) : M unit :=
  fun o => (Ok tt, with_state (option_map f (o_state o)) o).

Definition save : M unit := fun o => (Ok tt, save_state o).

(** [Orchestrator.plan_feature] *)
Definition plan_feature (tasks_match : string -> option (option (list json))) (fd : string)
  : M (list Task) :=
  o <- get_orch ;;
  _ <- (match o_state o with None => _ <- start_session fd ;; ret tt | Some _ => ret tt end) ;;
  result <- invoke_agent ARCHITECT
              (JStr ("Plan the implementation for:" ^^ nl ^^ nl ^^ fd ^^ nl ^^ nl ^^
               "Break this down into discrete tasks for: coder, reviewer, security, tester agents."))
              None None ;;
  if negb (ar_success result) then ret [] else
  _ <- modify_state (set_architecture (ar_summary result)) ;;
  ts <- try_except (parse_plan tasks_match (ar_summary result)) (fallback_plan fd) ;;
  _ <- modify_state (set_tasks ts) ;;
  _ <- save ;;
  ret ts.

(** ** [Orchestrator.execute_plan] *)

(** [t.id == dep] for a string id. *)
Definition id_is (dep : json) (id : string) : bool :=
  match dep with JStr s => String.eqb id s | _ => false end.

(** [any(t.id == dep and t.status == TaskStatus.COMPLETED for t in tasks)] *)
Definition dep_met (ts : list Task) (dep : json) : bool :=
  existsb (fun t => id_is dep (t_id t) && status_eqb (t_status t) COMPLETED) ts.

(** [all(... for dep in task.depends_on)]: [iter] of the dependency value
    is the only step that can raise. *)
Definition deps_met (ts : list Task) (task : Task) : res bool :=
  let* deps := py_iter (t_depends_on task) in
  Ok (forallb (dep_met ts) deps).

(** The [context.extend] loop over the completed tasks. *)
Fixpoint completed_files (ts : list Task) : res (list json) :=
  match ts with
  | [] => Ok []
  | t :: r =>
      let* here :=
        match t_status t, t_result t with
        | COMPLETED, Some res0 =>
            let* a := py_iter (ar_files_changed res0) in
            let* b := py_iter (ar_files_created res0) in
            Ok (a ++ b)
        | _, _ => Ok []
        end in
      let* rest := completed_files r in
      Ok (here ++ rest)
  end.

(** [list(set(xs))]: lists and dicts are unhashable; equal atoms
    ([1 == True] included) collapse.  The order of a Python set is
    unspecified; the model keeps first occurrences. *)
Definition atom_num (j : json) : option Z :=
  match j with JNum z => Some z | JBool true => Some 1%Z | JBool false => Some 0%Z | _ => None end.

Definition atom_eqb (x y : json) : bool :=
  match x, y with
  | JNull, JNull => true
  | JStr a, JStr b => String.eqb a b
  | _, _ => match atom_num x, atom_num y with
            | Some a, Some b => Z.eqb a b
            | _, _ => false
            end
  end.

Definition unhashable (j : json) : bool :=
  match j with JList _ | JObj _ => true | _ => false end.

Definition py_set_list (l : list json) : res (list json) :=
  if existsb unhashable l then Raise TypeError
  else Ok (fold_left (fun acc x => if existsb (atom_eqb x) acc then acc else acc ++ [x]) l []).

Fixpoint update_nth {A} (i : nat) (f : A -> A) (l : list A) {struct l} : list A :=
  match l, i with
  | [], _ => []
  | x :: r, O => f x :: r
  | x :: r, S j => x :: update_nth j f r
  end.

Definition final_status (r : AgentResult) : TaskStatus :=
  if truthy (ar_blocked r) then BLOCKED else if ar_success r then COMPLETED else FAILED.

(** One iteration of [for task in self.state.tasks], on the task at index [i]. *)
Definition exec_task (i : nat) (results : list (string * AgentResult))
  : M (list (string * AgentResult)) :=
  o <- get_orch ;;
  match o_state o with
  | None => ret results
  | Some st =>
    match nth_error (tasks st) i with
    | None => ret results
    | Some task =>
      met <- lift (deps_met (tasks st) task) ;;
      if negb met then ret results else
      if negb (status_eqb (t_status task) PENDING) then ret results else
      _ <- modify_state (fun s => set_tasks (update_nth i (set_status RUNNING) (tasks s)) s) ;;
      _ <- save ;;
      o2 <- get_orch ;;
      ctx <- lift (match o_state o2 with Some s => completed_files (tasks s) | None => Ok [] end) ;;
      all_files <- lift (py_add (JList ctx) (t_context_files task)) ;;
      files <- lift (match all_files with JList l => py_set_list l | _ => Raise TypeError end) ;;
      result <- invoke_agent (t_agent_type task) (t_description task) (Some (JList files)) None ;;
      _ <- modify_state (fun s => set_tasks (update_nth i (fun t =>
                           set_status (final_status result) (set_result result t)) (tasks s)) s) ;;
      _ <- save ;;
      ret (dict_set results (t_id task) result)
    end
  end.

Fixpoint exec_tasks (idx : list nat) (results : list (string * AgentResult))
  : M (list (string * AgentResult)) :=
  match idx with
  | [] => ret results
  | i :: rest => results' <- exec_task i results ;; exec_tasks rest results'
  end.

Definition execute_plan : M (list (string * AgentResult)) :=
  o <- get_orch ;;
  match o_state o with
  | None => throw ValueError
  | Some st =>
      match tasks st with
      | [] => throw ValueError
      | ts => exec_tasks (seq 0 (List.length ts)) []
      end
  end.

End Orchestrator.

(** ** [Orchestrator.get_status] *)

(** [sum(1 for t in tasks if t.status == s)] *)
Definition count_status (s : TaskStatus) (ts : list Task) : nat :=
  List.length (filter (fun t => status_eqb (t_status t) s) ts).

Definition get_status (st : option SwarmState) : json :=
  match st with
  | None => JObj [("status", JStr "no_session")]
  | Some s =>
      JObj [("session_id", JStr (session_id s));
            ("feature", JStr (feature_description s));
            ("status", JStr (st_status s));
            ("tasks", JObj [("total", JNum (Z.of_nat (List.length (tasks s))));
                            ("completed", JNum (Z.of_nat (count_status COMPLETED (tasks s))));
                            ("failed", JNum (Z.of_nat (count_status FAILED (tasks s))));
                            ("blocked", JNum (Z.of_nat (count_status BLOCKED (tasks s))));
                            ("pending", JNum (Z.of_nat (count_status PENDING (tasks s))))]);
            ("blockers", JList (map JStr (blockers s)));
            ("summaries_count", JNum (Z.of_nat (List.length (completed_summaries s))))]
  end.

(** ** [Orchestrator.list_sessions] *)

(** The entry built for one file of [.swarm/state]: [doc] is what
    [json.loads] gives ([None]: it raised).  Every exception of the [try]
    block is caught, and the file is skipped. *)
Definition session_entry (doc : option json) : option json :=
  match doc with
  | None => None
  | Some data =>
      match (let* sid := subscript data "session_id" in
             let* fd := subscript data "feature_description" in
             let* fd50 := py_prefix 50 fd in
             let* stt := get_default data "status" (JStr "unknown") in
             let* upd := subscript data "updated_at" in
             Ok (JObj [("session_id", sid); ("feature", fd50); ("status", stt); ("updated", upd)])) with
      | Ok e => Some e
      | Raise _ => None
      end
  end.

Fixpoint session_entries (docs : list (option json)) : list json :=
  match docs with
  | [] => []
  | d :: r =>
      match session_entry d with
      | Some e => e :: session_entries r
      | None => session_entries r
      end
  end.

(** [x["updated"]] of an entry. *)
Definition entry_updated (e : json) : json :=
  match e with JObj kv => dict_get_default kv "updated" JNull | _ => JNull end.

(** Python's [<] on the sort keys: strings by code point (the byte order
    of their UTF-8 encoding), numbers and booleans by value, [TypeError]
    between a string and a number and for [None] and dicts.  List keys
    (never written by [to_dict]) are refused as well. *)
Definition key_lt (x y : json) : res bool :=
  match x, y with
  | JStr a, JStr b => Ok (String.ltb a b)
  | _, _ =>
      match atom_num x, atom_num y with
      | Some a, Some b => Ok (Z.ltb a b)
      | _, _ => Raise TypeError
      end
  end.

(** [sorted(..., key=..., reverse=True)]: the stable sort from the largest
    key down, ties kept in their original order. *)
Fixpoint insert_desc (x : json) (l : list json) : res (list json) :=
  match l with
  | [] => Ok [x]
  | y :: r =>
      let* lt := key_lt (entry_updated y) (entry_updated x) in
      if lt then Ok (x :: y :: r)
      else let* r' := insert_desc x r in Ok (y :: r')
  end.

Fixpoint sort_desc (acc : list json) (l : list json) : res (list json) :=
  match l with
  | [] => Ok acc
  | x :: r => let* acc' := insert_desc x acc in sort_desc acc' r
  end.

(** [docs]: the files of [.swarm/state] in the order [glob] lists them. *)
Definition list_sessions (docs : list (option json)) : res (list json) :=
  sort_desc [] (session_entries docs).

(** ** [BaseAgent.__init__]: the settings an agent runs with *)

(** The class attributes of [agents/specialized.py]; the kinds with no
    class keep [BaseAgent]'s. *)
Definition class_allowed_tools (a : AgentType) : list string :=
  match a with
  | REVIEWER | ARCHITECT => ["Read"; "Glob"; "Grep"]
  | SECURITY => ["Read"; "Glob"; "Grep"; "Bash"]
  | DOCS | MOBILE_UI => ["Read"; "Write"; "Edit"; "Glob"]
  | DEBUGGER => ["Read"; "Bash"; "Glob"; "Grep"; "Edit"]
  | _ => ["Read"; "Write"; "Edit"; "Bash"; "Glob"; "Grep"]
  end.

Definition class_max_turns (a : AgentType) : Z :=
  match a with
  | CODER | TESTER | MOBILE_UI | AWS => 15
  | REVIEWER | SECURITY | DOCS | ARCHITECT => 10
  | DEBUGGER => 20
  | _ => 30
  end.

(** [system_prompt] is [None] when the class prompt is kept. *)
Record AgentSettings : Type := mkAgentSettings {
  ag_system_prompt : option json;
  ag_allowed_tools : json;
  ag_max_turns : json
}.

Definition agent_init (a : AgentType) (config_override : option (list (string * json)))
  : AgentSettings :=
  let cfg := match config_override with Some d => d | None => [] end in
  let get k := dict_get_default cfg k JNull in
  {| ag_system_prompt :=
       if truthy (get "system_prompt_override") then Some (get "system_prompt_override") else None;
     ag_allowed_tools :=
       if truthy (get "allowed_tools") then get "allowed_tools"
       else JList (map JStr (class_allowed_tools a));
     ag_max_turns :=
       if truthy (get "max_turns") then get "max_turns" else JNum (class_max_turns a) |}.

(** The fields of [config.AgentConfig] that [model_dump] hands to the
    agent ([temperature], a float the agent never reads, is left out). *)
Record AgentConfigFields : Type := mkAgentConfigFields {
  f_enabled : bool;
  f_system_prompt_override : option string;
  f_allowed_tools : list string;
  f_max_turns : Z;
  f_custom_instructions : option string
}.

Definition opt_str (o : option string) : json :=
  match o with Some s => JStr s | None => JNull end.

Definition model_dump (c : AgentConfigFields) : list (string * json) :=
  [("enabled", JBool (f_enabled c));
   ("system_prompt_override", opt_str (f_system_prompt_override c));
   ("allowed_tools", JList (map JStr (f_allowed_tools c)));
   ("max_turns", JNum (f_max_turns c));
   ("custom_instructions", opt_str (f_custom_instructions c))].

(** The agent [invoke_agent] creates for kind [a] under [config.agents]. *)
Definition spawned_settings (cfg_agents : list (string * AgentConfigFields)) (a : AgentType)
  : AgentSettings :=
  agent_init a (Some (match dict_lookup cfg_agents (agent_value a) with
                      | Some c => model_dump c
                      | None => []
                      end)).

(** ** [config.detect_project_type] *)

Inductive ProjectType : Type :=
| PYTHON | REACT_NATIVE | NODEJS | TYPESCRIPT | RUST | GO | JAVA | GENERIC.

(** [needle in s] *)
Fixpoint contains (needle s : string) : bool :=
  String.prefix needle s ||
  match s with EmptyString => false | String _ r => contains needle r end.

(** [PROJECT_SIGNATURES], in its insertion order.  The content checks
    look for ASCII words, for which ASCII [lower] decides as [str.lower]
    does. *)
Definition PROJECT_SIGNATURES : list (ProjectType * list (string * option (string -> bool))) :=
  [(REACT_NATIVE,
     [("app.json", Some (fun c => contains "expo" (lower c) || contains "react-native" (lower c)));
      ("package.json", Some (fun c => contains "react-native" (lower c)))]);
   (PYTHON, [("pyproject.toml", None); ("setup.py", None); ("requirements.txt", None);
             ("Pipfile", None)]);
   (NODEJS, [("package.json", Some (fun c => negb (contains "react-native" (lower c))))]);
   (TYPESCRIPT, [("tsconfig.json", None)]);
   (RUST, [("Cargo.toml", None)]);
   (GO, [("go.mod", None)]);
   (JAVA, [("pom.xml", None); ("build.gradle", None)])].

(** The project directory: [fs name] is [None] when [name] does not exist,
    [Some None] when it exists and [read_text] raises, [Some (Some c)]
    when it reads as [c]. *)
Fixpoint signature_hit (fs : string -> option (option string))
    (sigs : list (string * option (string -> bool))) : bool :=
  match sigs with
  | [] => false
  | (filename, content_check) :: r =>
      match fs filename with
      | None => signature_hit fs r
      | Some content =>
          match content_check with
          | None => true
          | Some check =>
              match content with
              | Some c => if check c then true else signature_hit fs r
              | None => signature_hit fs r
              end
          end
      end
  end.

Definition detect_project_type (fs : string -> option (option string)) : ProjectType :=
  match find (fun p => signature_hit fs (snd p)) PROJECT_SIGNATURES with
  | Some (pt, _) => pt
  | None => GENERIC
  end.

(** ** [config.init_config]: the [.gitignore] step *)

Definition gitignore_update (g : option string) : option string :=
  match g with
  | Some content =>
      if contains ".swarm/" content then Some content
      else Some (content ^^ nl ^^ "# Claude Swarm" ^^ nl ^^ ".swarm/" ^^ nl)
  | None => None
  end.

(** ** Decimal ids read back *)

(** The number a string of decimal digits denotes. *)
Fixpoint dec_val (acc : nat) (s : string) : nat :=
  match s with
  | EmptyString => acc
  | String c r => dec_val (acc * 10 + (nat_of_ascii c - 48)) r
  end.

(** ** Concrete inputs *)

Definition dq : string := String "034" EmptyString.

Definition empty_session : SwarmState :=
  mkSwarmState "20261019_120000" "add rate limiting" "NOW" "NOW" "active" JNull [] [] [].

Definition plain_result (a : AgentType) (ok : bool) (changed : list string) : AgentResult :=
  mkAgentResult a "20261019_120000_abcdef" ok (JStr "done") (JList (map JStr changed))
    (JList []) (JList []) (JList []) (JBool false) JNull None 0 None.

(** A session whose single task [t1] completed with a Result attached. *)
Definition t1_result : AgentResult := plain_result CODER true ["limiter.go"].

Definition completed_session : SwarmState :=
  mkSwarmState "20261019_120000" "add rate limiting" "NOW" "NOW" "active" JNull
    [mkTask "t1" CODER (JStr "implement") (JList []) (JList []) COMPLETED (Some t1_result)]
    ["[CODER] | ✓ | Changed: limiter.go"] [].

(** Agent output with a [```summary] block that says [blocked: yes] and
    gives no [block_reason] line, and what the recognisers find in it:
    [json.loads] fails on the leading backquote, there is no [```json]
    block, and the summary regex captures the single line. *)
Definition blocked_only_output : string :=
  "```summary" ^^ nl ^^ "blocked: yes" ^^ nl ^^ "```".

Definition blocked_only_seen : recognised := mkRecognised None None (Some "blocked: yes").

(** Agent output with a [```json] block [{"issues": [1]}]: [json.loads] of
    the whole text fails, the json-block regex captures the object. *)
Definition issues_output : string :=
  "```json" ^^ nl ^^ "{" ^^ dq ^^ "issues" ^^ dq ^^ ": [1]}" ^^ nl ^^ "```".

Definition issues_seen : recognised :=
  mkRecognised None (Some (Some [("issues", JList [JNum 1])])) None.

Definition issues_agent (n : nat) (a : AgentType) (t : string) (cf : option json)
    (ad : option string) : AgentResult :=
  base_invoke a "20261019_120000_abcdef" 0 (Exited issues_output 0) issues_seen.

(** The timed-out subprocess: its fixed message is not JSON and holds no
    fenced block. *)
Definition timeout_seen : recognised := mkRecognised None None None.

(** An architect whose plan lists a coder task and a task of the unknown
    kind ["planner"]. *)
Definition plan_text : string :=
  dq ^^ "tasks" ^^ dq ^^ ": [{" ^^ dq ^^ "agent" ^^ dq ^^ ": " ^^ dq ^^ "coder" ^^ dq ^^ "}, {"
     ^^ dq ^^ "agent" ^^ dq ^^ ": " ^^ dq ^^ "planner" ^^ dq ^^ "}]".

Definition planner_agent (n : nat) (a : AgentType) (t : string) (cf : option json)
    (ad : option string) : AgentResult :=
  mkAgentResult a "20261019_120000_abcdef" true (JStr plan_text) (JList []) (JList [])
    (JList []) (JList []) (JBool false) JNull None 0 None.

(** [re.search] and [json.loads] on [plan_text]. *)
Definition plan_text_match (s : string) : option (option (list json)) :=
  if String.eqb s plan_text
  then Some (Some [JObj [("agent", JStr "coder")]; JObj [("agent", JStr "planner")]])
  else None.

(** A session whose history is at the cap, and an agent that reports a
    hardcoded secret. *)
Definition full_session : SwarmState :=
  mkSwarmState "20261019_120000" "add rate limiting" "NOW" "NOW" "active" JNull []
    (map (fun n => "s" ^^ nat_to_dec n) (seq 1 20)) [].

Definition secret_result : AgentResult :=
  mkAgentResult SECURITY "20261019_120000_abcdef" false (JStr "Security issues found")
    (JList []) (JList []) (JList []) (JList []) (JBool true) (JStr "hardcoded secret found")
    None 0 None.

Definition secret_agent (n : nat) (a : AgentType) (t : string) (cf : option json)
    (ad : option string) : AgentResult := secret_result.

Definition gw_before : Orch := mkOrch (Some full_session) [] 0 [].

Definition gw_after : Orch :=
  snd (invoke_agent "NOW" secret_agent SECURITY (JStr "review") None None gw_before).

(** The plan of [fallback_plan_dangling_dependency] installed in the
    session, and an agent for which every task succeeds. *)
Definition planned : Orch :=
  snd (plan_feature "NOW" "20261019_120000" planner_agent plan_text_match
         "add rate limiting" (mkOrch None [] 0 [])).

Definition planned_session : SwarmState :=
  match o_state planned with Some s => s | None => empty_session end.

Definition security_task : Task :=
  mkTask "task_004" SECURITY (JStr "Security review") (JList []) (JList [JStr "task_001"])
    PENDING None.

Definition ok_agent (n : nat) (a : AgentType) (t : string) (cf : option json)
    (ad : option string) : AgentResult := plain_result a true ["limiter.go"].

(** A coder that fails, and a configuration that requires the security
    pass and tests. *)
Definition failing_coder (n : nat) (a : AgentType) (t : string) (cf : option json)
    (ad : option string) : AgentResult := plain_result a false [].

Definition strict_config : SwarmConfig :=
  mkSwarmConfig (mkOrchestratorConfig true true true) [].

(** An agent for which the coder succeeds and the security review reports
    a hardcoded secret. *)
Definition secret_pipeline_agent (n : nat) (a : AgentType) (t : string) (cf : option json)
    (ad : option string) : AgentResult :=
  match a with
  | SECURITY => secret_result
  | _ => plain_result a true ["limiter.go"]
  end.

Definition secret_pipeline_run :=
  run_pipeline strict_config "NOW" secret_pipeline_agent "add rate limiting" None
    false false false true (mkOrch None [] 0 []).

(** [m] keeps [P]: the state it leaves, normally or by an exception,
    satisfies [P] when the state it started from does. *)
Definition preserves {A} (P : Orch -> Prop) (m : M A) : Prop :=
  forall o, P o -> P (snd (m o)).

(** The task [task] sits at index [i] of the session, whose task ids are [ids]. *)
Definition Inv (i : nat) (task : Task) (ids : list string) (o : Orch) : Prop :=
  exists s, o_state o = Some s /\ nth_error (tasks s) i = Some task /\ map t_id (tasks s) = ids.


(** *** Predicates of the further properties *)

(** [a] may stand before [b] in the listing. *)
Definition not_older (a b : json) : Prop :=
  key_lt (entry_updated a) (entry_updated b) = Ok false.

Definition str_updated (e : json) : Prop := exists s, entry_updated e = JStr s.

(** No task of the list is [running]. *)
Definition no_running (ts : list Task) : bool :=
  forallb (fun t => negb (status_eqb (t_status t) RUNNING)) ts.

Definition has_session (o : Orch) : Prop := exists st, o_state o = Some st.

(** *** Concrete inputs of the further properties *)

(** [json.loads] fails on the text, the json-block regex finds
    [{"blocked": "waiting for API credentials"}]. *)
Definition string_blocked_seen : recognised :=
  mkRecognised None (Some (Some [("blocked", JStr "waiting for API credentials")])) None.

(** The CLI's result envelopes: a normal end, and the turn limit. *)
Definition cli_ok_raw : list (string * json) :=
  [("type", JStr "result"); ("subtype", JStr "success"); ("result", JStr "done")].

Definition cli_max_turns_raw : list (string * json) :=
  [("type", JStr "result"); ("subtype", JStr "error_max_turns")].

(** Three files of [.swarm/state]: two sessions and one unreadable file. *)
Definition session_docs : list (option json) :=
  [Some (JObj [("session_id", JStr "20261018_090000"); ("feature_description", JStr "add login");
               ("status", JStr "active"); ("updated_at", JStr "2026-10-18T09:30:00")]);
   None;
   Some (JObj [("session_id", JStr "20261019_120000");
               ("feature_description", JStr "add rate limiting");
               ("updated_at", JStr "2026-10-19T12:05:00")])].

(** A project with a [requirements.txt], and one whose [package.json]
    names react-native. *)
Definition python_dir (f : string) : option (option string) :=
  if String.eqb f "requirements.txt" then Some (Some "flask") else None.

Definition rn_dir (f : string) : option (option string) :=
  if String.eqb f "package.json" then Some (Some "dependencies: React-Native 0.74") else None.

(** A configuration with a default [AgentConfig] entry for the reviewer. *)
Definition reviewer_config : list (string * AgentConfigFields) :=
  [("reviewer", mkAgentConfigFields true None [] 30 None)].

(** Two planner entries. *)
Definition planner_entries : list json :=
  [JObj [("agent", JStr "coder"); ("task", JStr "implement")];
   JObj [("agent", JStr "tester"); ("task", JStr "write tests"); ("depends_on", JList [JStr "task_004"])]].

(** A session whose single pending task has the kind [refactor], which the
    registry does not know. *)
Definition stuck_session : SwarmState :=
  mkSwarmState "20261019_120000" "add rate limiting" "NOW" "NOW" "active" JNull
    [mkTask "task_001" REFACTOR (JStr "tidy up") (JList []) (JList []) PENDING None] [] [].

Definition stuck_orch : Orch := mkOrch (Some stuck_session) [] 1 [].

Definition planned_run :=
  plan_feature "NOW" "20261019_120000" planner_agent plan_text_match "add rate limiting"
    (mkOrch None [] 0 []).

Definition planned_tasks : list Task :=
  match fst planned_run with Ok ts => ts | Raise _ => [] end.

Definition planner_run := plan_tasks planner_entries (mkOrch None [] 3 []).

Definition planner_tasks : list Task :=
  match fst planner_run with Ok ts => ts | Raise _ => [] end.

Definition plan_pass := execute_plan "NOW" ok_agent planned.

Definition plan_pass_results : list (string * AgentResult) :=
  match fst plan_pass with Ok r => r | Raise _ => [] end.

Definition stuck_pass := exec_task "NOW" ok_agent 0 [] stuck_orch.

Definition string_blocked_output : string :=
  "```json" ^^ nl ^^ "{" ^^ dq ^^ "blocked" ^^ dq ^^ ": " ^^ dq ^^ "waiting for API credentials"
  ^^ dq ^^ "}" ^^ nl ^^ "```".

(** ** Persistence round trip *)

Definition forget_result (t : Task) : Task :=
  mkTask (t_id t) (t_agent_type t) (t_description t) (t_context_files t) (t_depends_on t)
    (t_status t) None.

Lemma AgentType_of_value : forall a, AgentType_of (JStr (agent_value a)) = Ok a.
Proof. destruct a; reflexivity. Qed.

Lemma TaskStatus_of_value : forall s, TaskStatus_of (JStr (status_value s)) = Ok s.
Proof. destruct s; reflexivity. Qed.

Lemma all_str_map : forall l, all_str (map JStr l) = Ok l.
Proof. induction l as [|x l IH]; simpl; [reflexivity | rewrite IH; reflexivity]. Qed.

Lemma task_roundtrip : forall t, task_from_dict (task_to_dict t) = Ok (forget_result t).
Proof.
  intros [id a d cf deps st r]. destruct a, st; reflexivity.
Qed.

Lemma tasks_roundtrip : forall ts,
  map_res task_from_dict (map task_to_dict ts) = Ok (map forget_result ts).
Proof.
  induction ts as [|t ts IH]; simpl; [reflexivity|].
  rewrite task_roundtrip, IH. reflexivity.
Qed.

(** Reading back what [to_dict] wrote gives the same session except that
    every Task has lost its Result. *)
Theorem swarm_roundtrip_forgets_results : forall s,
  swarm_from_dict (swarm_to_dict s) =
  Ok (set_tasks (map forget_result (tasks s)) s).
Proof.
  intros [sid fd ca ua stt arch ts cs bl]. unfold swarm_from_dict, swarm_to_dict. simpl.
  rewrite tasks_roundtrip. simpl. rewrite !all_str_map. reflexivity.
Qed.

(** ** Claims *)

(** C1 (Resume round trip).  A session saved by [_save_state] and loaded
    back by [resume_session] in a restarted orchestrator keeps its task
    statuses and histories, but [SwarmState.from_dict] never reads the
    ["result"] entry that [Task.to_dict] writes: the completed task [t1],
    saved with its Result attached, comes back with [result = None]. *)
Theorem resume_loses_task_result :
  let saved := save_state "NOW" (mkOrch (Some completed_session) [] 0 []) in
  let restarted := mkOrch None (o_files saved) 0 [] in
  option_map (fun s => map t_result (tasks s)) (o_state saved) = Some [Some t1_result] /\
  fst (resume_session "20261019_120000" restarted) = Ok true /\
  option_map (fun s => (map t_status (tasks s), map t_result (tasks s),
                        completed_summaries s, blockers s))
    (o_state (snd (resume_session "20261019_120000" restarted)))
  = Some ([COMPLETED], [None], ["[CODER] | ✓ | Changed: limiter.go"], []).
Proof. vm_compute. repeat split; reflexivity. Qed.

(** C2 (amended).  In every Result built by [BaseAgent.invoke], a truthy
    [blocked] flag forces [success = false]: both are read from the same
    parsed value. *)
Theorem invoke_blocked_not_success : forall a tid et o rc,
  truthy (ar_blocked (base_invoke a tid et o rc)) = true ->
  ar_success (base_invoke a tid et o rc) = false.
Proof.
  intros a tid et o rc H. unfold base_invoke in *.
  destruct (invoke_background o) as [out ok]. simpl in *.
  rewrite H. apply andb_false_r.
Qed.

Lemma invoke_blocked_not_success_witness :
  truthy (ar_blocked (base_invoke CODER "t" 0 (Exited blocked_only_output 0) blocked_only_seen)) = true /\
  ar_success (base_invoke CODER "t" 0 (Exited blocked_only_output 0) blocked_only_seen) = false.
Proof.
  split; [reflexivity|].
  apply (invoke_blocked_not_success CODER "t" 0 (Exited blocked_only_output 0) blocked_only_seen).
  reflexivity.
Defined.

(** C2 (counterexample).  A summary block with [blocked: yes] and no
    [block_reason] line gives a blocked Result whose [block_reason] is
    [None], not a non-empty string. *)
Lemma invoke_blocked_without_reason :
  ~ (forall a tid et o rc,
       truthy (ar_blocked (base_invoke a tid et o rc)) = true ->
       ar_success (base_invoke a tid et o rc) = false /\
       exists s, ar_block_reason (base_invoke a tid et o rc) = JStr s /\ s <> "").
Proof.
  intro H.
  destruct (H CODER "t" 0%Z (Exited blocked_only_output 0) blocked_only_seen eq_refl)
    as [_ [s [Hs _]]].
  vm_compute in Hs. discriminate Hs.
Qed.

(** C3 (fallback plan).  [plan_feature] draws the fallback ids from the
    task counter but hard-codes the dependency ["task_001"].  When the
    planner's second entry has the unknown kind ["planner"], the [try]
    block has already used [task_001] and [task_002] for the discarded
    entries, so the fallback implement task is [task_003] and the three
    others depend on an id that is in no task of the plan. *)
Theorem fallback_plan_dangling_dependency :
  fst (plan_feature "NOW" "20261019_120000" planner_agent plan_text_match
         "add rate limiting" (mkOrch None [] 0 []))
  = Ok [mkTask "task_003" CODER (JStr "Implement: add rate limiting") (JList []) (JList []) PENDING None;
        mkTask "task_004" SECURITY (JStr "Security review") (JList []) (JList [JStr "task_001"]) PENDING None;
        mkTask "task_005" REVIEWER (JStr "Code review") (JList []) (JList [JStr "task_001"]) PENDING None;
        mkTask "task_006" TESTER (JStr "Write tests") (JList []) (JList [JStr "task_001"]) PENDING None].
Proof. vm_compute. reflexivity. Qed.

(** The timed-out subprocess yields a failed, unblocked Result whose
    summary is the timeout message. *)
Lemma timeout_result_failed_not_blocked : forall a tid et,
  ar_success (base_invoke a tid et TimeoutExpired timeout_seen) = false /\
  ar_blocked (base_invoke a tid et TimeoutExpired timeout_seen) = JBool false /\
  ar_summary (base_invoke a tid et TimeoutExpired timeout_seen)
    = JStr "Agent timed out after 10 minutes".
Proof. intros; repeat split; reflexivity. Qed.

(** C10 (Gateway failures).  The subprocess exits 0 and prints a
    [```json] block whose ["issues"] list holds the number [1]:
    [BaseAgent.invoke] returns a Result, but the Gateway's
    [to_summary_string] calls [i.get] on that item, and the
    [AttributeError] leaves [invoke_agent] instead of a Result. *)
Theorem gateway_raises_on_malformed_issue :
  fst (invoke_agent "NOW" issues_agent CODER (JStr "implement") None None
         (mkOrch (Some empty_session) [] 0 []))
  = Raise AttributeError.
Proof. vm_compute. reflexivity. Qed.

Lemma dict_lookup_set : forall (V : Type) (d : list (string * V)) k v,
  dict_lookup (dict_set d k v) k = Some v.
Proof.
  intros V d k v. induction d as [|[k' v'] d IH]; simpl.
  - rewrite String.eqb_refl. reflexivity.
  - destruct (String.eqb k k') eqn:E; simpl; rewrite E; [reflexivity | exact IH].
Qed.

Lemma trim20_skipn : forall cs, trim20 cs = skipn (List.length cs - 20) cs.
Proof.
  intro cs. unfold trim20, lastn. destruct (Nat.ltb 20 (List.length cs)) eqn:E.
  - reflexivity.
  - apply Nat.ltb_ge in E. replace (List.length cs - 20) with 0 by lia. reflexivity.
Qed.

(** What a normal return of the Gateway did to an active session. *)
Lemma invoke_agent_ok_active : forall now ag a task cf addl o st r o',
  o_state o = Some st ->
  invoke_agent now ag a task cf addl o = (Ok r, o') ->
  exists line,
    to_summary_string r = Ok line /\
    o' = save_state now (with_state (Some (set_history
            (trim20 (completed_summaries st ++ [line]))
            (if truthy (ar_blocked r) then blockers st ++ [blocker_line a r] else blockers st)
            st))
          (mkOrch (o_state o) (o_files o) (o_counter o) (o_calls o ++ [(a, match task with JStr t => t | _ => "" end)]))).
Proof.
  intros now ag a task cf addl o st r o' Hst H. unfold invoke_agent in H.
  destruct (registered a); simpl in H; [|discriminate].
  destruct task as [| | |t| |]; try discriminate.
  simpl in H. rewrite Hst in H.
  destruct (to_summary_string _) as [line|e] eqn:E; [|discriminate].
  injection H as <- <-. exists line. split; [exact E | reflexivity].
Qed.

(** C4 (Gateway bookkeeping).  When the Gateway returns normally with an
    active session, the Result's digest was appended to
    [completed_summaries] (then trimmed to the cap), ["<kind>: <reason>"]
    was appended to [blockers] exactly when the Result is blocked, and the
    new session is what the state file of the session now holds. *)
Theorem gateway_records_and_persists : forall now ag a task cf addl o st r o',
  o_state o = Some st ->
  invoke_agent now ag a task cf addl o = (Ok r, o') ->
  exists line st',
    to_summary_string r = Ok line /\
    o_state o' = Some st' /\
    completed_summaries st' = trim20 (completed_summaries st ++ [line]) /\
    blockers st' = (if truthy (ar_blocked r)
                    then blockers st ++ [agent_value a ^^ ": " ^^ py_str (ar_block_reason r)]
                    else blockers st) /\
    dict_lookup (o_files o') (session_id st) = Some (swarm_to_dict st').
Proof.
  intros now ag a task cf addl o st r o' Hst H.
  destruct (invoke_agent_ok_active now ag a task cf addl o st r o' Hst H) as [line [E ->]].
  eexists line, _. split; [exact E|]. split; [reflexivity|].
  split; [reflexivity|]. split; [reflexivity|].
  cbn [save_state o_state with_state o_files]. apply dict_lookup_set.
Qed.

Lemma gateway_records_and_persists_witness :
  o_state gw_before = Some full_session /\
  invoke_agent "NOW" secret_agent SECURITY (JStr "review") None None gw_before
    = (Ok secret_result, gw_after) /\
  exists line st',
    to_summary_string secret_result = Ok line /\
    o_state gw_after = Some st' /\
    completed_summaries st' = trim20 (completed_summaries full_session ++ [line]) /\
    blockers st' = (if truthy (ar_blocked secret_result)
                    then blockers full_session ++ [agent_value SECURITY ^^ ": "
                                                   ^^ py_str (ar_block_reason secret_result)]
                    else blockers full_session) /\
    dict_lookup (o_files gw_after) (session_id full_session) = Some (swarm_to_dict st').
Proof.
  split; [reflexivity|]. split; [vm_compute; reflexivity|].
  apply (gateway_records_and_persists "NOW" secret_agent SECURITY (JStr "review") None None
           gw_before full_session secret_result gw_after); [reflexivity | vm_compute; reflexivity].
Defined.

(** C5 (bounded history).  After a normal return of the Gateway with an
    active session, [completed_summaries] is the last 20 entries of the
    old history followed by the new digest: at most 20 entries, the
    oldest dropped first, the survivors in their order. *)
Theorem summaries_capped_fifo : forall now ag a task cf addl o st r o',
  o_state o = Some st ->
  invoke_agent now ag a task cf addl o = (Ok r, o') ->
  exists line st',
    to_summary_string r = Ok line /\
    o_state o' = Some st' /\
    completed_summaries st'
      = skipn (List.length (completed_summaries st ++ [line]) - 20)
              (completed_summaries st ++ [line]) /\
    List.length (completed_summaries st') <= 20.
Proof.
  intros now ag a task cf addl o st r o' Hst H.
  destruct (invoke_agent_ok_active now ag a task cf addl o st r o' Hst H) as [line [E ->]].
  eexists line, _. split; [exact E|]. split; [reflexivity|]. cbn.
  rewrite trim20_skipn. split; [reflexivity|].
  rewrite length_skipn. lia.
Qed.

Lemma summaries_capped_fifo_witness :
  o_state gw_before = Some full_session /\
  invoke_agent "NOW" secret_agent SECURITY (JStr "review") None None gw_before
    = (Ok secret_result, gw_after) /\
  exists line st',
    to_summary_string secret_result = Ok line /\
    o_state gw_after = Some st' /\
    completed_summaries st'
      = skipn (List.length (completed_summaries full_session ++ [line]) - 20)
              (completed_summaries full_session ++ [line]) /\
    List.length (completed_summaries st') <= 20.
Proof.
  split; [reflexivity|]. split; [vm_compute; reflexivity|].
  apply (summaries_capped_fifo "NOW" secret_agent SECURITY (JStr "review") None None
           gw_before full_session secret_result gw_after); [reflexivity | vm_compute; reflexivity].
Defined.

(** ** Invariants of the state monad *)

Section Preserves.

Variable P : Orch -> Prop.

Lemma pres_ret : forall A (a : A), preserves P (ret a).
Proof. unfold preserves, ret. auto. Qed.

Lemma pres_throw : forall A e, preserves P (@throw A e).
Proof. unfold preserves, throw. auto. Qed.

Lemma pres_lift : forall A (r : res A), preserves P (lift r).
Proof. unfold preserves, lift. auto. Qed.

Lemma pres_get : preserves P get_orch.
Proof. unfold preserves, get_orch. auto. Qed.

Lemma pres_bind : forall A B (m : M A) (k : A -> M B),
  preserves P m -> (forall a, preserves P (k a)) -> preserves P (mbind m k).
Proof.
  intros A B m k Hm Hk o Ho. unfold mbind.
  specialize (Hm o Ho). destruct (m o) as [[a|e] o'].
  - apply Hk. exact Hm.
  - exact Hm.
Qed.

End Preserves.

Lemma nth_error_update_nth_neq : forall A (f : A -> A) l i j,
  j <> i -> nth_error (update_nth j f l) i = nth_error l i.
Proof.
  intros A f l. induction l as [|x l IH]; intros i j Hne; [reflexivity|].
  destruct j as [|j], i as [|i]; simpl; try reflexivity.
  - exfalso. apply Hne. reflexivity.
  - apply IH. lia.
Qed.

Lemma map_update_nth : forall A B (g : A -> B) (f : A -> A) l j,
  (forall x, g (f x) = g x) -> map g (update_nth j f l) = map g l.
Proof.
  intros A B g f l. induction l as [|x l IH]; intros j Hf; [reflexivity|].
  destruct j as [|j]; simpl; [rewrite Hf | rewrite IH]; auto.
Qed.

(** The Gateway never touches the task list. *)
Lemma invoke_agent_tasks : forall now ag a task cf addl o st,
  o_state o = Some st ->
  exists st', o_state (snd (invoke_agent now ag a task cf addl o)) = Some st' /\
              tasks st' = tasks st.
Proof.
  intros now ag a task cf addl o st Hst. unfold invoke_agent.
  destruct (registered a); cbn [negb]; [|exists st; auto].
  destruct task as [| | |t| |]; try (exists st; auto; fail).
  cbn [o_state]. rewrite Hst.
  destruct (to_summary_string _); cbn; [eexists; split; reflexivity | exists st; auto].
Qed.

(** *** A task with a dangling dependency *)

Section Dangling.

Variables (now : string) (ag : nat -> AgentType -> string -> option json -> option string -> AgentResult).
Variables (i : nat) (task : Task) (ids : list string) (dep : json).

Hypothesis dep_listed : exists deps, py_iter (t_depends_on task) = Ok deps /\ In dep deps.
Hypothesis dep_dangling : existsb (id_is dep) ids = false.

Lemma dangling_not_met : forall ts, map t_id ts = ids -> deps_met ts task = Ok false.
Proof.
  intros ts Hids. destruct dep_listed as [deps [Hit Hin]].
  unfold deps_met. rewrite Hit. cbn [bind]. f_equal.
  apply Bool.not_true_is_false. intro Hall.
  rewrite forallb_forall in Hall. specialize (Hall dep Hin).
  unfold dep_met in Hall. apply existsb_exists in Hall as [t [Ht Hm]].
  apply andb_true_iff in Hm as [Hm _].
  assert (Hx : existsb (id_is dep) ids = true).
  { apply existsb_exists. exists (t_id t). split; [|exact Hm].
    rewrite <- Hids. apply in_map. exact Ht. }
  rewrite dep_dangling in Hx. discriminate.
Qed.

Lemma pres_save : forall now', preserves (Inv i task ids) (fun o => (Ok tt, save_state now' o)).
Proof.
  intros now' o [s [Hs [Hi Hids]]]. unfold save_state. cbn [snd]. rewrite Hs.
  exists (set_updated now' s). auto.
Qed.

Lemma pres_update : forall j f, j <> i -> (forall t, t_id (f t) = t_id t) ->
  preserves (Inv i task ids) (modify_state (fun s => set_tasks (update_nth j f (tasks s)) s)).
Proof.
  intros j f Hne Hf o [s [Hs [Hi Hids]]]. unfold modify_state. cbn [snd o_state with_state].
  rewrite Hs. cbn [option_map]. eexists. split; [reflexivity|]. cbn [tasks set_tasks].
  split.
  - rewrite nth_error_update_nth_neq by exact Hne. exact Hi.
  - rewrite map_update_nth by exact Hf. exact Hids.
Qed.

Lemma pres_invoke : forall a t cf addl, preserves (Inv i task ids) (invoke_agent now ag a t cf addl).
Proof.
  intros a t cf addl o [s [Hs [Hi Hids]]].
  destruct (invoke_agent_tasks now ag a t cf addl o s Hs) as [s' [Hs' Ht]].
  exists s'. rewrite Ht. auto.
Qed.

Lemma pres_exec_task : forall j results, preserves (Inv i task ids) (exec_task now ag j results).
Proof.
  intros j results o HI. pose proof HI as [s [Hs [Hi Hids]]].
  unfold exec_task. unfold mbind at 1, get_orch. rewrite Hs.
  destruct (nth_error (tasks s) j) as [tj|] eqn:Hj; [|exact HI].
  unfold mbind at 1, lift. destruct (deps_met (tasks s) tj) as [met|e] eqn:Hd; [|exact HI].
  destruct met; cbn [negb]; [|exact HI].
  destruct (status_eqb (t_status tj) PENDING); cbn [negb]; [|exact HI].
  destruct (Nat.eq_dec j i) as [->|Hne].
  { rewrite Hi in Hj. injection Hj as <-. rewrite (dangling_not_met _ Hids) in Hd. discriminate. }
  match goal with |- Inv i task ids (snd (?m o)) => cut (preserves (Inv i task ids) m); [intro Hp; exact (Hp o HI)|] end.
  apply pres_bind; [apply pres_update; auto|intros _].
  apply pres_bind; [apply pres_save|intros _].
  apply pres_bind; [apply pres_get|intros o2].
  apply pres_bind; [apply pres_lift|intros ctx].
  apply pres_bind; [apply pres_lift|intros all_files].
  apply pres_bind; [apply pres_lift|intros files].
  apply pres_bind; [apply pres_invoke|intros result].
  apply pres_bind; [apply pres_update; auto|intros _].
  apply pres_bind; [apply pres_save|intros _].
  apply pres_ret.
Qed.

Lemma pres_exec_tasks : forall idx results, preserves (Inv i task ids) (exec_tasks now ag idx results).
Proof.
  induction idx as [|j idx IH]; intro results; simpl.
  - apply pres_ret.
  - apply pres_bind; [apply pres_exec_task | intro r; apply IH].
Qed.

Lemma pres_execute_plan : preserves (Inv i task ids) (execute_plan now ag).
Proof.
  intros o HI. pose proof HI as [s [Hs _]].
  unfold execute_plan, mbind at 1, get_orch. rewrite Hs.
  destruct (tasks s); [exact HI|]. apply pres_exec_tasks. exact HI.
Qed.

End Dangling.

Lemma existsb_map_comp : forall A B (f : B -> bool) (g : A -> B) l,
  existsb f (map g l) = existsb (fun x => f (g x)) l.
Proof. intros A B f g l. induction l as [|x l IH]; simpl; [reflexivity | rewrite IH; reflexivity]. Qed.

(** C6 (dangling dependency).  A pending task one of whose dependency
    values names no task of the session is still pending in the state
    [execute_plan] leaves, whatever the agent answers for the other tasks
    (and also when the call ends in an exception). *)
Theorem dangling_dependency_stays_pending : forall now ag o st i task deps dep,
  o_state o = Some st ->
  nth_error (tasks st) i = Some task ->
  t_status task = PENDING ->
  py_iter (t_depends_on task) = Ok deps ->
  In dep deps ->
  existsb (fun t => id_is dep (t_id t)) (tasks st) = false ->
  exists st', o_state (snd (execute_plan now ag o)) = Some st' /\
              option_map t_status (nth_error (tasks st') i) = Some PENDING.
Proof.
  intros now ag o st i task deps dep Hs Hi Hp Hit Hin Hno.
  assert (HI : Inv i task (map t_id (tasks st)) o) by (exists st; auto).
  assert (Hd : existsb (id_is dep) (map t_id (tasks st)) = false)
    by (rewrite existsb_map_comp; exact Hno).
  destruct (pres_execute_plan now ag i task (map t_id (tasks st)) dep
              (ex_intro _ deps (conj Hit Hin)) Hd o HI) as [s' [Hs' [Hi' _]]].
  exists s'. split; [exact Hs'|]. rewrite Hi'. cbn. rewrite Hp. reflexivity.
Qed.

Lemma dangling_dependency_stays_pending_witness :
  o_state planned = Some planned_session /\
  nth_error (tasks planned_session) 1 = Some security_task /\
  exists st', o_state (snd (execute_plan "NOW" ok_agent planned)) = Some st' /\
              option_map t_status (nth_error (tasks st') 1) = Some PENDING.
Proof.
  split; [vm_compute; reflexivity|]. split; [vm_compute; reflexivity|].
  apply (dangling_dependency_stays_pending "NOW" ok_agent planned planned_session 1
           security_task [JStr "task_001"] (JStr "task_001"));
    [vm_compute; reflexivity | vm_compute; reflexivity | reflexivity | reflexivity
    | simpl; auto | vm_compute; reflexivity].
Defined.

(** *** A fully resolved graph *)

Lemma exec_task_resolved : forall now ag j results o st,
  o_state o = Some st ->
  forallb (fun t => negb (status_eqb (t_status t) PENDING)) (tasks st) = true ->
  snd (exec_task now ag j results o) = o.
Proof.
  intros now ag j results o st Hs Hall.
  unfold exec_task, mbind at 1, get_orch. rewrite Hs.
  destruct (nth_error (tasks st) j) as [t|] eqn:Hj; [|reflexivity].
  unfold mbind at 1, lift. destruct (deps_met (tasks st) t) as [[|]|e]; try reflexivity.
  rewrite forallb_forall in Hall.
  specialize (Hall t (nth_error_In _ _ Hj)).
  apply negb_true_iff in Hall. cbn [negb]. rewrite Hall. reflexivity.
Qed.

Lemma exec_tasks_resolved : forall now ag idx results o st,
  o_state o = Some st ->
  forallb (fun t => negb (status_eqb (t_status t) PENDING)) (tasks st) = true ->
  snd (exec_tasks now ag idx results o) = o.
Proof.
  intros now ag idx. induction idx as [|j idx IH]; intros results o st Hs Hall; [reflexivity|].
  simpl. unfold mbind.
  pose proof (exec_task_resolved now ag j results o st Hs Hall) as E.
  destruct (exec_task now ag j results o) as [[r|e] o1]; cbn in E; subst o1;
    [exact (IH r o st Hs Hall) | reflexivity].
Qed.

(** C7 (idempotence on a resolved graph).  When no task of the session is
    pending, [execute_plan] leaves the orchestrator exactly as it found it:
    no status, Result, history or state file changes. *)
Theorem execute_plan_resolved_noop : forall now ag o st,
  o_state o = Some st ->
  forallb (fun t => negb (status_eqb (t_status t) PENDING)) (tasks st) = true ->
  snd (execute_plan now ag o) = o.
Proof.
  intros now ag o st Hs Hall.
  unfold execute_plan, mbind at 1, get_orch. rewrite Hs.
  destruct (tasks st) eqn:Ht; [reflexivity|].
  rewrite <- Ht in Hall |- *. apply (exec_tasks_resolved now ag _ [] o st Hs Hall).
Qed.

Lemma execute_plan_resolved_noop_witness :
  forallb (fun t => negb (status_eqb (t_status t) PENDING)) (tasks completed_session) = true /\
  snd (execute_plan "NOW" ok_agent (mkOrch (Some completed_session) [] 0 []))
    = mkOrch (Some completed_session) [] 0 [].
Proof.
  split; [reflexivity|].
  apply (execute_plan_resolved_noop "NOW" ok_agent (mkOrch (Some completed_session) [] 0 [])
           completed_session); reflexivity.
Defined.

(** *** The fixed pipeline *)

Lemma invoke_agent_calls : forall now ag a t cf addl o,
  registered a = true ->
  o_calls (snd (invoke_agent now ag a (JStr t) cf addl o)) = o_calls o ++ [(a, t)].
Proof.
  intros now ag a t cf addl o Hreg. unfold invoke_agent. rewrite Hreg. cbn [negb].
  destruct (o_state o) as [st|]; cbn [o_state]; [|reflexivity].
  destruct (to_summary_string _); reflexivity.
Qed.

Lemma dict_lookup_set_other : forall (V : Type) (d : list (string * V)) k k' v,
  k <> k' -> dict_lookup (dict_set d k v) k' = dict_lookup d k'.
Proof.
  intros V d k k' v Hne. induction d as [|[k0 v0] d IH]; simpl.
  - apply String.eqb_neq in Hne. rewrite String.eqb_sym, Hne. reflexivity.
  - destruct (String.eqb k k0) eqn:E; simpl.
    + apply String.eqb_eq in E. subst k0.
      assert (Hk : String.eqb k' k = false) by (apply String.eqb_neq; congruence).
      rewrite Hk. reflexivity.
    + rewrite IH. reflexivity.
Qed.

(** The review stages add no ["tester"] entry and invoke no tester. *)
Lemma run_reviews_no_tester : forall now ag l text changed results o,
  Forall (fun x => snd x <> TESTER /\ fst x <> "tester") l ->
  match run_reviews now ag l text changed results o with
  | (Ok res', o') =>
      dict_lookup res' "tester" = dict_lookup results "tester" /\
      exists new, o_calls o' = o_calls o ++ new /\ ~ In TESTER (map fst new)
  | (Raise _, _) => True
  end.
Proof.
  intros now ag l. induction l as [|[name a] l IH]; intros text changed results o Hl.
  - simpl. split; [reflexivity|]. exists []. rewrite app_nil_r. simpl. auto.
  - inversion Hl as [|x l' [Ha Hn] Hl' Heq]; subst. cbn [fst snd] in Ha, Hn.
    simpl. unfold mbind.
    destruct (invoke_agent now ag a (JStr text) (Some changed) None o) as [[r|e] o1] eqn:E;
      [|exact I].
    specialize (IH text changed (dict_set results name r) o1 Hl').
    destruct (run_reviews now ag l text changed (dict_set results name r) o1) as [[res'|e] o2];
      [|exact I].
    destruct IH as [Ht [new [Hc Hnot]]].
    split.
    + rewrite Ht. apply dict_lookup_set_other. exact Hn.
    + destruct (registered a) eqn:Hreg.
      * pose proof (invoke_agent_calls now ag a text (Some changed) None o Hreg) as C.
        rewrite E in C. cbn [snd] in C.
        exists ((a, text) :: new). rewrite Hc, C, <- app_assoc. split; [reflexivity|].
        simpl. intros [H|H]; [exact (Ha H) | exact (Hnot H)].
      * unfold invoke_agent in E. rewrite Hreg in E. cbn [negb] in E.
        injection E as _ <-. exists new. auto.
Qed.

(** C8 (coder failure).  When the coder stage's Result has
    [success = false], [run_pipeline] returns the mapping with the single
    entry ["coder"] and leaves the state as the coder invocation left it:
    the coder is the only agent invoked. *)
Theorem coder_failure_stops_pipeline : forall cfg now ag task cf s1 s2 s3 sf o r o1,
  invoke_agent now ag CODER (JStr task) cf None o = (Ok r, o1) ->
  ar_success r = false ->
  run_pipeline cfg now ag task cf s1 s2 s3 sf o = (Ok [("coder", r)], o1) /\
  o_calls o1 = o_calls o ++ [(CODER, task)].
Proof.
  intros cfg now ag task cf s1 s2 s3 sf o r o1 E Hs. split.
  - unfold run_pipeline, mbind at 1. rewrite E. cbv zeta. rewrite Hs. reflexivity.
  - pose proof (invoke_agent_calls now ag CODER task cf None o eq_refl) as C.
    rewrite E in C. exact C.
Qed.

Lemma coder_failure_stops_pipeline_witness :
  invoke_agent "NOW" failing_coder CODER (JStr "add rate limiting") None None
      (mkOrch None [] 0 [])
    = (Ok (plain_result CODER false []), mkOrch None [] 0 [(CODER, "add rate limiting")]) /\
  run_pipeline strict_config "NOW" failing_coder "add rate limiting" None false false false true
      (mkOrch None [] 0 [])
    = (Ok [("coder", plain_result CODER false [])], mkOrch None [] 0 [(CODER, "add rate limiting")]) /\
  o_calls (mkOrch None [] 0 [(CODER, "add rate limiting")])
    = o_calls (mkOrch None [] 0 []) ++ [(CODER, "add rate limiting")].
Proof.
  split; [reflexivity|].
  apply (coder_failure_stops_pipeline strict_config "NOW" failing_coder "add rate limiting" None
           false false false true (mkOrch None [] 0 []) (plain_result CODER false [])
           (mkOrch None [] 0 [(CODER, "add rate limiting")])); reflexivity.
Defined.

(** C9 (security gate).  With [require_security_pass] on, a pipeline run
    whose returned mapping holds a blocked ["security"] Result holds no
    ["tester"] entry, and the tester was never invoked. *)
Theorem security_block_skips_tester : forall cfg now ag task cf s1 s2 s3 sf o results o',
  require_security_pass (orchestrator cfg) = true ->
  run_pipeline cfg now ag task cf s1 s2 s3 sf o = (Ok results, o') ->
  forall sr, dict_lookup results "security" = Some sr ->
  truthy (ar_blocked sr) = true ->
  dict_lookup results "tester" = None /\
  exists new, o_calls o' = o_calls o ++ new /\ ~ In TESTER (map fst new).
Proof.
  intros cfg now ag task cf s1 s2 s3 sf o results o' Hreq Hrun sr Hsec Hblk.
  unfold run_pipeline, mbind at 1 in Hrun.
  pose proof (invoke_agent_calls now ag CODER task cf None o eq_refl) as C1.
  destruct (invoke_agent now ag CODER (JStr task) cf None o) as [[cr|e] o1];
    [|discriminate]. cbn [snd] in C1. cbv zeta in Hrun.
  destruct (ar_success cr); cbn [negb] in Hrun.
  2:{ injection Hrun as <- _. discriminate Hsec. }
  unfold mbind at 1, lift in Hrun.
  destruct (py_add (ar_files_changed cr) (ar_files_created cr)) as [changed|e]; [|discriminate].
  unfold mbind at 1 in Hrun.
  match type of Hrun with
  | context [run_reviews now ag ?l ?t ?c ?r o1] =>
      assert (Hl : Forall (fun x => snd x <> TESTER /\ fst x <> "tester") l);
      [| pose proof (run_reviews_no_tester now ag l t c r o1 Hl) as RS;
         destruct (run_reviews now ag l t c r o1) as [[res'|e] o2]; [|discriminate]]
  end.
  { destruct (negb s1 && stage_enabled cfg "security"), (negb s3 && stage_enabled cfg "reviewer"),
             (parallel_reviews (orchestrator cfg) && negb sf);
      simpl; repeat constructor; discriminate. }
  destruct RS as [Ht [new [Hc Hnot]]].
  rewrite Hreq in Hrun.
  destruct (match dict_lookup res' "security" with
            | Some r => truthy (ar_blocked r) | None => false end) eqn:SB;
    cbn [andb] in Hrun.
  - injection Hrun as <- <-. split; [exact Ht|].
    exists ((CODER, task) :: new). rewrite Hc, C1, <- app_assoc. split; [reflexivity|].
    simpl. intros [H|H]; [discriminate H | exact (Hnot H)].
  - exfalso.
    destruct (negb s2 && require_tests (orchestrator cfg) && stage_enabled cfg "tester").
    + unfold mbind in Hrun.
      destruct (invoke_agent now ag TESTER _ (Some changed) None o2) as [[tr|e] o3];
        [|discriminate].
      injection Hrun as <- _.
      rewrite dict_lookup_set_other in Hsec by discriminate.
      rewrite Hsec, Hblk in SB. discriminate.
    + injection Hrun as <- _. rewrite Hsec, Hblk in SB. discriminate.
Qed.

Lemma security_block_skips_tester_witness :
  require_security_pass (orchestrator strict_config) = true /\
  secret_pipeline_run = (Ok (match fst secret_pipeline_run with Ok m => m | Raise _ => [] end),
                         snd secret_pipeline_run) /\
  dict_lookup (match fst secret_pipeline_run with Ok m => m | Raise _ => [] end) "security"
    = Some secret_result /\
  dict_lookup (match fst secret_pipeline_run with Ok m => m | Raise _ => [] end) "tester" = None /\
  exists new, o_calls (snd secret_pipeline_run) = o_calls (mkOrch None [] 0 []) ++ new /\
              ~ In TESTER (map fst new).
Proof.
  split; [reflexivity|]. split; [vm_compute; reflexivity|].
  split; [vm_compute; reflexivity|].
  apply (security_block_skips_tester strict_config "NOW" secret_pipeline_agent "add rate limiting"
           None false false false true (mkOrch None [] 0 [])
           (match fst secret_pipeline_run with Ok m => m | Raise _ => [] end)
           (snd secret_pipeline_run)) with (sr := secret_result);
    [reflexivity | vm_compute; reflexivity | vm_compute; reflexivity | reflexivity].
Defined.

(** ** Further properties of the code *)

(** *** The output parser *)

Lemma dict_get_set_same : forall d k v, dict_get (dict_set d k v) k = Some v.
Proof.
  intros d k v. induction d as [|[k' v'] d IH]; simpl.
  - rewrite String.eqb_refl. reflexivity.
  - destruct (String.eqb k k') eqn:E; simpl; rewrite E; [reflexivity | exact IH].
Qed.

Lemma dict_get_set_other : forall d k k' v,
  k <> k' -> dict_get (dict_set d k v) k' = dict_get d k'.
Proof.
  intros d k k' v Hne. induction d as [|[k0 v0] d IH]; simpl.
  - apply String.eqb_neq in Hne. rewrite String.eqb_sym, Hne. reflexivity.
  - destruct (String.eqb k k0) eqn:E; simpl.
    + apply String.eqb_eq in E. subst k0.
      assert (Hk : String.eqb k' k = false) by (apply String.eqb_neq; congruence).
      rewrite Hk. reflexivity.
    + rewrite IH. reflexivity.
Qed.

Lemma dict_get_set_present : forall d k k' v,
  dict_get d k <> None -> dict_get (dict_set d k' v) k <> None.
Proof.
  intros d k k' v H. destruct (string_dec k' k) as [->|Hne].
  - rewrite dict_get_set_same. discriminate.
  - rewrite dict_get_set_other by exact Hne. exact H.
Qed.

Lemma dict_update_present : forall p d k,
  dict_get d k <> None -> dict_get (dict_update d p) k <> None.
Proof.
  induction p as [|[k' v] p IH]; intros d k H; [exact H|].
  unfold dict_update. simpl. apply IH. apply dict_get_set_present. exact H.
Qed.

Lemma summary_line_present : forall acc line k,
  dict_get acc k <> None -> dict_get (summary_line acc line) k <> None.
Proof.
  intros acc line k H. unfold summary_line.
  destruct (has_char ":" line); [|exact H].
  destruct (split_once ":" line) as [k0 v0].
  repeat match goal with |- context [if ?b then _ else _] => destruct b end;
    try apply dict_get_set_present; exact H.
Qed.

Lemma fold_summary_present : forall lines acc k,
  dict_get acc k <> None -> dict_get (fold_left summary_line lines acc) k <> None.
Proof.
  induction lines as [|l lines IH]; intros acc k H; [exact H|].
  simpl. apply IH. apply summary_line_present. exact H.
Qed.

(** The subtype dispatch of the CLI branch on any other value. *)
Lemma subtype_default : forall (A : Type) (j : json) (x y z d : A),
  j <> JStr "error_max_turns" -> j <> JStr "error" -> j <> JStr "interactive" ->
  match j with
  | JStr "error_max_turns" => x
  | JStr "error" => y
  | JStr "interactive" => z
  | _ => d
  end = d.
Proof.
  intros A j x y z d H1 H2 H3.
  destruct j as [| | |s| |]; try reflexivity.
  do 16 (try (destruct s as [|c s];
              [try reflexivity | destruct c as [[] [] [] [] [] [] [] []]; try reflexivity]));
  exfalso; first [apply H1; reflexivity | apply H2; reflexivity | apply H3; reflexivity].
Qed.

Lemma result_dispatch : forall (A : Type) (t : json) (m : A),
  match t with JStr "result" => Some m | _ => None end = None \/
  match t with JStr "result" => Some m | _ => None end = Some m.
Proof.
  intros A t m. destruct t as [| | |s| |]; try (left; reflexivity).
  do 7 (try (destruct s as [|c s];
             [try (left; reflexivity)
             | destruct c as [[] [] [] [] [] [] [] []]; try (left; reflexivity)])).
  right; reflexivity.
Qed.

Lemma jstr_dec : forall j s, {j = JStr s} + {j <> JStr s}.
Proof.
  intros j s. destruct j as [| | |s'| |]; try (right; discriminate).
  destruct (string_dec s' s) as [->|Hne]; [left; reflexivity | right; congruence].
Qed.

Ltac summary_rest H0 :=
  match goal with |- context [rc_summary_block ?r] => destruct (rc_summary_block r) end;
  [apply fold_summary_present|]; apply dict_get_set_present; exact H0.

Ltac parse_rest H0 :=
  match goal with |- context [rc_json_block ?r] => destruct (rc_json_block r) as [[?parsed|]|] end;
  [apply dict_update_present; exact H0 | summary_rest H0 | summary_rest H0].

(** X1 ([_parse_output]).  Whatever the agent printed, the dict that
    [_parse_output] returns holds the seven keys it starts with, so the
    defaults of the [parsed.get] calls in [invoke] (the summary
    [output[:1000]] among them) are never used. *)
Theorem parse_output_has_all_keys : forall rc output k,
  In k ["summary"; "files_changed"; "files_created"; "issues"; "suggestions";
        "blocked"; "block_reason"] ->
  dict_get (parse_output rc output) k <> None.
Proof.
  intros rc output k Hk.
  assert (H0 : dict_get parse_init k <> None)
    by (simpl in Hk; intuition subst; discriminate).
  unfold parse_output. cbv zeta.
  destruct (rc_loads rc) as [[| | | | |raw]|]; try (parse_rest H0).
  destruct (dict_get raw "type") as [t|]; [|parse_rest H0].
  edestruct (result_dispatch (list (string * json)) t) as [E|E]; erewrite E;
    [parse_rest H0|].
  remember (dict_get_default raw "subtype" (JStr "")) as j.
  destruct (jstr_dec j "error_max_turns") as [->|n1];
    [repeat apply dict_get_set_present; exact H0|].
  destruct (jstr_dec j "error") as [->|n2];
    [repeat apply dict_get_set_present; exact H0|].
  destruct (jstr_dec j "interactive") as [->|n3];
    [repeat apply dict_get_set_present; exact H0|].
  erewrite subtype_default by assumption.
  apply dict_get_set_present; exact H0.
Qed.






Lemma summary_line_summary : forall acc line,
  dict_get (summary_line acc line) "summary" = dict_get acc "summary".
Proof.
  intros acc line. unfold summary_line.
  destruct (has_char ":" line); [|reflexivity].
  destruct (split_once ":" line) as [k v]. cbv zeta.
  match goal with |- context [if ?b then _ else _] => destruct b eqn:E end.
  - rewrite dict_get_set_other; [reflexivity|].
    intro Hk. rewrite Hk in E. discriminate E.
  - match goal with |- context [if ?b then _ else _] => destruct b eqn:E2 end.
    + rewrite dict_get_set_other by discriminate. reflexivity.
    + match goal with |- context [if ?b then _ else _] => destruct b eqn:E3 end;
        [rewrite dict_get_set_other by discriminate|]; reflexivity.
Qed.

Lemma fold_summary_summary : forall lines acc,
  dict_get (fold_left summary_line lines acc) "summary" = dict_get acc "summary".
Proof.
  induction lines as [|l lines IH]; intro acc; [reflexivity|].
  simpl. rewrite IH. apply summary_line_summary.
Qed.

(** X3 ([_parse_output], summary block).  When the output is not JSON and
    has no parsable [```json] block but has a [```summary] block, the
    summary is the whole text of that block: its [key: value] lines set
    other fields and never replace it. *)
Theorem parse_output_summary_block : forall rc output text,
  rc_loads rc = None ->
  (rc_json_block rc = None \/ rc_json_block rc = Some None) ->
  rc_summary_block rc = Some text ->
  dict_get (parse_output rc output) "summary" = Some (JStr text).
Proof.
  intros rc output text H1 H2 H3. unfold parse_output. rewrite H1. cbv zeta.
  destruct H2 as [-> | ->]; rewrite H3;
    rewrite fold_summary_summary; apply dict_get_set_same.
Qed.

Lemma dict_get_update_notin : forall p d k,
  ~ In k (map fst p) -> dict_get (dict_update d p) k = dict_get d k.
Proof.
  induction p as [|[k' v] p IH]; intros d k H; [reflexivity|].
  unfold dict_update. simpl. simpl in H.
  fold (dict_update (dict_set d k' v) p). rewrite IH by tauto.
  apply dict_get_set_other. intro E. apply H. left. exact E.
Qed.

Lemma dict_get_update_in : forall p d k v,
  NoDup (map fst p) -> dict_get p k = Some v -> dict_get (dict_update d p) k = Some v.
Proof.
  induction p as [|[k' v'] p IH]; intros d k v Hnd H; [discriminate|].
  simpl in H. inversion Hnd as [|x l Hnot Hnd' Heq]; subst.
  unfold dict_update. simpl. fold (dict_update (dict_set d k' v') p).
  destruct (String.eqb k k') eqn:E.
  - apply String.eqb_eq in E. subst k'. injection H as <-.
    rewrite dict_get_update_notin by exact Hnot. apply dict_get_set_same.
  - apply IH; assumption.
Qed.

(** X4 ([invoke] on a [```json] block).  When the [```json] block the
    parser finds gives a dict whose ["blocked"] value is a non-empty
    string (["no"] or ["false"] included), the Result carries that string
    as [blocked] and has [success = false]: the flag is tested by Python
    truthiness, not as a boolean. *)
Theorem json_block_string_blocked : forall a tid et o rc parsed s,
  rc_loads rc = None ->
  rc_json_block rc = Some (Some parsed) ->
  NoDup (map fst parsed) ->
  dict_get parsed "blocked" = Some (JStr s) ->
  s <> "" ->
  ar_blocked (base_invoke a tid et o rc) = JStr s /\
  ar_success (base_invoke a tid et o rc) = false.
Proof.
  intros a tid et o rc parsed s H1 H2 Hnd Hb Hs.
  assert (E : dict_get_default (parse_output rc (fst (invoke_background o))) "blocked" (JBool false)
              = JStr s).
  { unfold parse_output. rewrite H1, H2. cbv zeta. unfold dict_get_default.
    rewrite (dict_get_update_in parsed parse_init "blocked" (JStr s) Hnd Hb). reflexivity. }
  unfold base_invoke. destruct (invoke_background o) as [out ok]. cbn [fst snd] in E.
  cbn [ar_blocked ar_success]. rewrite E. split; [reflexivity|].
  cbn [truthy]. apply String.eqb_neq in Hs. rewrite Hs. apply andb_false_r.
Qed.

(** X5 ([invoke] on Claude CLI JSON).  When the whole output is a Claude
    CLI document of type ["result"] whose subtype is neither
    ["error_max_turns"] nor ["error"] (["interactive"] and a missing
    subtype included), the Result is not blocked, has no block reason,
    and its [success] is exactly whether the subprocess exited with
    status 0. *)
Theorem cli_result_not_blocked : forall a tid et o rc raw,
  rc_loads rc = Some (JObj raw) ->
  dict_get raw "type" = Some (JStr "result") ->
  dict_get_default raw "subtype" (JStr "") <> JStr "error_max_turns" ->
  dict_get_default raw "subtype" (JStr "") <> JStr "error" ->
  ar_blocked (base_invoke a tid et o rc) = JBool false /\
  ar_block_reason (base_invoke a tid et o rc) = JNull /\
  ar_success (base_invoke a tid et o rc) = snd (invoke_background o).
Proof.
  intros a tid et o rc raw H1 H2 H3 H4.
  unfold base_invoke. destruct (invoke_background o) as [out ok]. cbn [fst snd].
  unfold parse_output. rewrite H1. cbv zeta. rewrite H2.
  remember (dict_get_default raw "subtype" (JStr "")) as j.
  destruct (jstr_dec j "interactive") as [->|H5].
  - cbn. rewrite andb_true_r. auto.
  - erewrite subtype_default by assumption. cbn. rewrite andb_true_r. auto.
Qed.

(** X6 ([invoke] on a Claude CLI error).  When the whole output is a
    Claude CLI document of type ["result"] and subtype ["error_max_turns"]
    or ["error"], the Result is blocked and unsuccessful whatever the
    exit status; for ["error_max_turns"] the block reason is the fixed
    text ["Max turns reached - task may be too complex"]. *)
Theorem cli_error_blocks : forall a tid et o rc raw,
  rc_loads rc = Some (JObj raw) ->
  dict_get raw "type" = Some (JStr "result") ->
  dict_get_default raw "subtype" (JStr "") = JStr "error_max_turns" \/
  dict_get_default raw "subtype" (JStr "") = JStr "error" ->
  truthy (ar_blocked (base_invoke a tid et o rc)) = true /\
  ar_success (base_invoke a tid et o rc) = false /\
  (dict_get_default raw "subtype" (JStr "") = JStr "error_max_turns" ->
   ar_block_reason (base_invoke a tid et o rc)
   = JStr "Max turns reached - task may be too complex").
Proof.
  intros a tid et o rc raw H1 H2 H3.
  unfold base_invoke. destruct (invoke_background o) as [out ok]. cbn [fst snd].
  unfold parse_output. rewrite H1. cbv zeta. rewrite H2.
  destruct H3 as [-> | ->]; cbn; rewrite andb_false_r; repeat split; auto; discriminate.
Qed.


Lemma count_severity_dicts : forall sev l, exists n, count_severity sev (map JObj l) = Ok n.
Proof.
  intros sev l. induction l as [|kv l [n IH]]; [exists 0; reflexivity|].
  cbn [map count_severity]. rewrite IH. cbn [bind].
  destruct (dict_get kv "severity") as [[| | |s| |]|]; eexists; reflexivity.
Qed.

(** X7 ([to_summary_string]).  The digest is computed without an
    exception whenever [files_changed] is empty or a list of strings and
    [issues_found] is empty or a list of dicts, the shapes the agents'
    output format asks for. *)
Theorem summary_string_total : forall r,
  (truthy (ar_files_changed r) = false \/ exists l, ar_files_changed r = JList (map JStr l)) ->
  (truthy (ar_issues_found r) = false \/ exists l, ar_issues_found r = JList (map JObj l)) ->
  exists s, to_summary_string r = Ok s.
Proof.
  intros r Hf Hi. unfold to_summary_string.
  assert (Hp1 : forall p0 : list string, exists p1,
            (if truthy (ar_files_changed r) then
               let* first3 := py_prefix 3 (ar_files_changed r) in
               let* shown := py_join ", " first3 in
               let* n := py_len (ar_files_changed r) in
               Ok (p0 ++ ["Changed: " ^^ shown]
                      ++ (if Nat.ltb 3 n then ["(+" ^^ nat_to_dec (n - 3) ^^ " more)"] else []))
             else Ok p0) = Ok p1).
  { intro p0. destruct Hf as [Hf | [l Hf]].
    - rewrite Hf. eexists; reflexivity.
    - rewrite Hf. destruct (truthy (JList (map JStr l))); [|eexists; reflexivity].
      cbn [py_prefix bind py_join py_iter py_len]. rewrite firstn_map, all_str_map.
      cbn [bind]. eexists; reflexivity. }
  assert (Hp2 : forall p1 : list string, exists p2,
            (if truthy (ar_issues_found r) then
               let* items := py_iter (ar_issues_found r) in
               let* critical := count_severity "critical" items in
               let* warnings := count_severity "warning" items in
               Ok (p1 ++ (if Nat.eqb critical 0 then [] else ["🔴 " ^^ nat_to_dec critical ^^ " critical"])
                      ++ (if Nat.eqb warnings 0 then [] else ["🟡 " ^^ nat_to_dec warnings ^^ " warnings"]))
             else Ok p1) = Ok p2).
  { intro p1. destruct Hi as [Hi | [l Hi]].
    - rewrite Hi. eexists; reflexivity.
    - rewrite Hi. destruct (truthy (JList (map JObj l))); [|eexists; reflexivity].
      cbn [py_iter bind].
      destruct (count_severity_dicts "critical" l) as [c Ec].
      destruct (count_severity_dicts "warning" l) as [w Ew].
      rewrite Ec. cbn [bind]. rewrite Ew. cbn [bind]. eexists; reflexivity. }
  destruct (Hp1 [("[" ^^ upper (agent_value (ar_agent_type r)) ^^ "]");
                 (if ar_success r then "✓" else "✗")]) as [p1 E1].
  rewrite E1. cbn [bind].
  destruct (Hp2 p1) as [p2 E2]. rewrite E2. cbn [bind].
  eexists; reflexivity.
Qed.

(** *** [Orchestrator.get_status] *)

Lemma count_status_total : forall ts,
  (count_status COMPLETED ts + count_status FAILED ts + count_status BLOCKED ts
   + count_status PENDING ts + count_status RUNNING ts = List.length ts)%nat.
Proof.
  induction ts as [|t ts IH]; [reflexivity|].
  unfold count_status in *. cbn [List.length filter].
  destruct (t_status t); cbn; lia.
Qed.

(** X8 ([get_status]).  The four counters of the report never exceed
    [total]: what they leave out is exactly the number of tasks still
    [running], a status the report does not count. *)
Theorem get_status_counts_add_up : forall s,
  exists kv tk tot c f b p,
    get_status (Some s) = JObj kv /\ dict_get kv "tasks" = Some (JObj tk) /\
    dict_get tk "total" = Some (JNum tot) /\ dict_get tk "completed" = Some (JNum c) /\
    dict_get tk "failed" = Some (JNum f) /\ dict_get tk "blocked" = Some (JNum b) /\
    dict_get tk "pending" = Some (JNum p) /\
    (c + f + b + p <= tot)%Z /\
    (tot - (c + f + b + p))%Z = Z.of_nat (count_status RUNNING (tasks s)).
Proof.
  intros s. do 7 eexists.
  split; [reflexivity|]. split; [reflexivity|].
  do 5 (split; [reflexivity|]).
  pose proof (count_status_total (tasks s)). lia.
Qed.

(** *** [Orchestrator.list_sessions] *)

Lemma string_ltb_asym : forall a b, String.ltb a b = true -> String.ltb b a = false.
Proof.
  intros a b H. unfold String.ltb in *. rewrite String.compare_antisym in H.
  destruct (String.compare b a); simpl in H; congruence.
Qed.

Lemma insert_desc_hd : forall x l l' z,
  insert_desc x l = Ok l' -> not_older z x -> HdRel not_older z l -> HdRel not_older z l'.
Proof.
  intros x [|y r] l' z E Hx Hl; cbn [insert_desc] in E.
  - injection E as <-. constructor. exact Hx.
  - destruct (key_lt (entry_updated y) (entry_updated x)) as [[|]|]; cbn [bind] in E;
      try discriminate.
    + injection E as <-. constructor. exact Hx.
    + destruct (insert_desc x r); cbn [bind] in E; try discriminate.
      injection E as <-. constructor. inversion Hl; assumption.
Qed.

Lemma insert_desc_ok : forall x l,
  str_updated x -> Forall str_updated l -> Sorted not_older l ->
  exists l', insert_desc x l = Ok l' /\ Permutation l' (x :: l) /\ Sorted not_older l'.
Proof.
  intros x l [sx Hx]. induction l as [|y r IH]; intros Hf Hs.
  - exists [x]. repeat split; auto.
  - inversion Hf as [|? ? [sy Hy] Hr]; subst.
    inversion Hs as [|? ? Hsr Hhd]; subst.
    cbn [insert_desc]. rewrite Hx, Hy. cbn [key_lt bind].
    destruct (String.ltb sy sx) eqn:Lt.
    + exists (x :: y :: r). split; [reflexivity|]. split; [reflexivity|].
      constructor; [assumption|]. constructor.
      unfold not_older. rewrite Hx, Hy. cbn. rewrite (string_ltb_asym _ _ Lt). reflexivity.
    + destruct (IH Hr Hsr) as [r' [E [P S]]]. rewrite E. cbn [bind].
      exists (y :: r'). split; [reflexivity|]. split.
      * rewrite P. apply perm_swap.
      * constructor; [assumption|]. apply (insert_desc_hd x r r' y E); [|assumption].
        unfold not_older. rewrite Hx, Hy. cbn. rewrite Lt. reflexivity.
Qed.

Lemma sort_desc_ok : forall l acc,
  Forall str_updated l -> Forall str_updated acc -> Sorted not_older acc ->
  exists out, sort_desc acc l = Ok out /\ Permutation out (rev l ++ acc) /\ Sorted not_older out.
Proof.
  induction l as [|x r IH]; intros acc Hl Ha Hs.
  - exists acc. repeat split; auto.
  - inversion Hl as [|? ? Hx Hr]; subst.
    destruct (insert_desc_ok x acc Hx Ha Hs) as [acc' [E [P S]]].
    cbn [sort_desc]. rewrite E. cbn [bind].
    assert (Ha' : Forall str_updated acc').
    { apply (Permutation_Forall (Permutation_sym P)). constructor; assumption. }
    destruct (IH acc' Hr Ha' S) as [out [E' [P' S']]].
    exists out. split; [exact E'|]. split; [|exact S'].
    rewrite P', P. cbn [rev]. rewrite <- app_assoc. reflexivity.
Qed.

Lemma session_entry_updated : forall d e,
  session_entry (Some d) = Some e ->
  exists kv u, d = JObj kv /\ dict_get kv "updated_at" = Some u /\ entry_updated e = u.
Proof.
  intros d e E. unfold session_entry in E.
  destruct d as [| | | | |kv]; cbn in E; try discriminate.
  destruct (dict_get kv "session_id"); cbn in E; try discriminate.
  destruct (dict_get kv "feature_description") as [fd|]; cbn in E; try discriminate.
  destruct (py_prefix 50 fd); cbn in E; try discriminate.
  destruct (dict_get kv "updated_at") as [u|] eqn:Hu; cbn in E; try discriminate.
  injection E as <-. exists kv, u. split; [reflexivity|]. split; [exact Hu | reflexivity].
Qed.

Lemma session_entries_str : forall docs,
  (forall kv u, In (Some (JObj kv)) docs -> dict_get kv "updated_at" = Some u ->
                exists s, u = JStr s) ->
  Forall str_updated (session_entries docs).
Proof.
  induction docs as [|d r IH]; intros H; cbn [session_entries]; [constructor|].
  assert (Hr : Forall str_updated (session_entries r)).
  { apply IH. intros kv u Hin. apply H. right. exact Hin. }
  destruct (session_entry d) as [e|] eqn:E; [|exact Hr].
  constructor; [|exact Hr].
  destruct d as [d|]; [|discriminate]. unfold str_updated.
  destruct (session_entry_updated d e E) as [kv [u [-> [Hu ->]]]].
  apply (H kv u); [left; reflexivity | exact Hu].
Qed.

(** X9 ([list_sessions]).  When every stored [updated_at] is a string,
    the listing is computed without an exception, holds exactly the
    entries of the readable files (up to order), and is ordered from the
    most recent [updated] value down. *)
Theorem list_sessions_sorted : forall docs,
  (forall kv u, In (Some (JObj kv)) docs -> dict_get kv "updated_at" = Some u ->
                exists s, u = JStr s) ->
  exists out, list_sessions docs = Ok out /\
    Permutation out (session_entries docs) /\
    Sorted (fun a b => key_lt (entry_updated a) (entry_updated b) = Ok false) out.
Proof.
  intros docs H. unfold list_sessions.
  destruct (sort_desc_ok (session_entries docs) [] (session_entries_str docs H)
              (Forall_nil _) (Sorted_nil _)) as [out [E [P S]]].
  exists out. split; [exact E|]. split; [|exact S].
  rewrite P, app_nil_r. symmetry. apply Permutation_rev.
Qed.

(** *** [config.detect_project_type] *)

Lemma signature_hit_plain : forall fs sigs f,
  In (f, None) sigs -> fs f <> None -> signature_hit fs sigs = true.
Proof.
  intros fs sigs f. induction sigs as [|[g ck] r IH]; intros Hin Hf; [destruct Hin|].
  cbn [signature_hit]. destruct Hin as [E|Hin].
  - injection E as -> ->. destruct (fs f); [reflexivity | congruence].
  - destruct (fs g) as [content|]; [|apply IH; assumption].
    destruct ck as [chk|]; [|reflexivity].
    destruct content as [c|]; [|apply IH; assumption].
    destruct (chk c); [reflexivity | apply IH; assumption].
Qed.

Lemma signature_hit_checked : forall fs sigs f chk c,
  In (f, Some chk) sigs -> fs f = Some (Some c) -> chk c = true ->
  signature_hit fs sigs = true.
Proof.
  intros fs sigs f chk c. induction sigs as [|[g ck] r IH]; intros Hin Hf Hc; [destruct Hin|].
  cbn [signature_hit]. destruct Hin as [E|Hin].
  - injection E as -> ->. rewrite Hf, Hc. reflexivity.
  - destruct (fs g) as [content|]; [|apply IH; assumption].
    destruct ck as [chk'|]; [|reflexivity].
    destruct content as [c'|]; [|apply IH; assumption].
    destruct (chk' c'); [reflexivity | apply IH; assumption].
Qed.

(** X10 ([detect_project_type]).  A Python marker file (whatever its
    content) makes the project Python, unless the React Native signature,
    checked first, matched. *)
Theorem detect_python_marker : forall fs f,
  In f ["pyproject.toml"; "setup.py"; "requirements.txt"; "Pipfile"] -> fs f <> None ->
  detect_project_type fs = REACT_NATIVE \/ detect_project_type fs = PYTHON.
Proof.
  intros fs f Hin Hf. unfold detect_project_type, PROJECT_SIGNATURES. cbn [find snd].
  destruct (signature_hit fs _); [left; reflexivity|].
  rewrite (signature_hit_plain fs _ f); [right; reflexivity | | exact Hf].
  cbn in Hin. cbn. intuition (subst; auto).
Qed.

(** X11 ([detect_project_type]).  A readable [package.json] settles the
    type among the first three signatures: React Native when it mentions
    react-native (in any case), else React Native, Python or Node.js; it
    never falls through to TypeScript, Rust, Go, Java or generic. *)
Theorem detect_package_json : forall fs c,
  fs "package.json" = Some (Some c) ->
  (contains "react-native" (lower c) = true -> detect_project_type fs = REACT_NATIVE) /\
  In (detect_project_type fs) [REACT_NATIVE; PYTHON; NODEJS].
Proof.
  intros fs c Hp. unfold detect_project_type, PROJECT_SIGNATURES. cbn [find snd].
  split.
  - intros Hc.
    rewrite (signature_hit_checked fs _ "package.json"
               (fun c => contains "react-native" (lower c)) c); [reflexivity | | exact Hp | exact Hc].
    right. left. reflexivity.
  - destruct (signature_hit fs [("app.json", _); _]) eqn:R1; [left; reflexivity|].
    destruct (signature_hit fs [("pyproject.toml", None); _; _; _]); [right; left; reflexivity|].
    destruct (contains "react-native" (lower c)) eqn:Hc.
    + exfalso.
      rewrite (signature_hit_checked fs _ "package.json"
                 (fun c => contains "react-native" (lower c)) c) in R1;
        [discriminate | right; left; reflexivity | exact Hp | exact Hc].
    + rewrite (signature_hit_checked fs _ "package.json"
                 (fun c => negb (contains "react-native" (lower c))) c);
        [right; right; left; reflexivity | left; reflexivity | exact Hp | rewrite Hc; reflexivity].
Qed.

(** *** [config.init_config]: the [.gitignore] step *)

Lemma str_app_nil_r : forall s, s ^^ "" = s.
Proof. induction s as [|c s IH]; cbn; [reflexivity | rewrite IH; reflexivity]. Qed.

Lemma contains_app_r : forall n p s, contains n s = true -> contains n (p ^^ s) = true.
Proof.
  intros n p s H. induction p as [|c p IH]; [exact H|].
  cbn [String.append contains]. rewrite IH. apply orb_true_r.
Qed.

(** X12 ([init_config]).  The [.gitignore] step only appends to the file,
    leaves it mentioning [.swarm/], and a second run changes nothing. *)
Theorem gitignore_update_appends : forall content,
  exists suffix,
    gitignore_update (Some content) = Some (content ^^ suffix) /\
    contains ".swarm/" (content ^^ suffix) = true /\
    gitignore_update (gitignore_update (Some content)) = gitignore_update (Some content).
Proof.
  intros content. destruct (contains ".swarm/" content) eqn:H.
  - exists "". rewrite str_app_nil_r. unfold gitignore_update. rewrite H. cbv beta iota.
    rewrite H. auto.
  - exists (nl ^^ "# Claude Swarm" ^^ nl ^^ ".swarm/" ^^ nl).
    assert (Hc : contains ".swarm/" (content ^^ nl ^^ "# Claude Swarm" ^^ nl ^^ ".swarm/" ^^ nl)
                 = true).
    { do 4 apply contains_app_r. reflexivity. }
    unfold gitignore_update. rewrite H. cbv beta iota. rewrite Hc. auto.
Qed.

(** *** The settings of the agents [invoke_agent] creates *)

(** X13 ([BaseAgent.__init__] under [AgentRegistry.create]).  A kind with
    an entry in [config.agents] runs with the entry's [max_turns] whenever
    it is not 0 (so with 30, the default of [AgentConfig], in place of the
    class's own limit); an empty tool list and an absent prompt override
    keep the class's tools and prompt. *)
Theorem spawned_settings_configured : forall cfg a c,
  dict_lookup cfg (agent_value a) = Some c -> f_max_turns c <> 0%Z ->
  ag_max_turns (spawned_settings cfg a) = JNum (f_max_turns c) /\
  (f_allowed_tools c = [] ->
   ag_allowed_tools (spawned_settings cfg a) = JList (map JStr (class_allowed_tools a))) /\
  (f_system_prompt_override c = None -> ag_system_prompt (spawned_settings cfg a) = None).
Proof.
  intros cfg a c H Hm. unfold spawned_settings, agent_init. rewrite H.
  unfold dict_get_default, model_dump. cbn [dict_get String.eqb fst snd].
  cbn.
  split; [|split].
  - cbn. rewrite <- Z.eqb_neq in Hm. rewrite Hm. reflexivity.
  - intros E. rewrite E. reflexivity.
  - intros E. rewrite E. reflexivity.
Qed.

(** X14 ([BaseAgent.__init__] under [AgentRegistry.create]).  A kind with
    no entry in [config.agents] keeps its class's tools and turn limit and
    its own prompt. *)
Theorem spawned_settings_unconfigured : forall cfg a,
  dict_lookup cfg (agent_value a) = None ->
  spawned_settings cfg a =
    {| ag_system_prompt := None;
       ag_allowed_tools := JList (map JStr (class_allowed_tools a));
       ag_max_turns := JNum (class_max_turns a) |}.
Proof.
  intros cfg a H. unfold spawned_settings, agent_init. rewrite H. reflexivity.
Qed.

(** *** Task ids: [_generate_task_id] and the planner loop *)

Lemma nat_of_digit : forall n, nat_of_ascii (ascii_of_nat (48 + n mod 10)) = 48 + n mod 10.
Proof.
  intros n. apply nat_ascii_embedding.
  pose proof (Nat.mod_upper_bound n 10 ltac:(lia)). lia.
Qed.

Lemma dec_val_dec_aux : forall fuel n s, n < fuel -> dec_val 0 (dec_aux fuel n s) = dec_val n s.
Proof.
  induction fuel as [|f IH]; intros n s H; [lia|].
  cbn [dec_aux]. destruct (Nat.ltb n 10) eqn:L.
  - apply Nat.ltb_lt in L. cbn [dec_val]. rewrite nat_of_digit.
    rewrite Nat.mod_small by exact L. f_equal. lia.
  - apply Nat.ltb_ge in L. rewrite IH.
    + cbn [dec_val]. rewrite nat_of_digit. f_equal.
      pose proof (Nat.div_mod_eq n 10). lia.
    + pose proof (Nat.div_lt n 10 ltac:(lia) ltac:(lia)). lia.
Qed.

Lemma dec_val_zeros : forall k s, dec_val 0 (zeros k ^^ s) = dec_val 0 s.
Proof. induction k as [|k IH]; intros s; [reflexivity | exact (IH s)]. Qed.

(** [int(f"{n:03d}")] is [n]. *)
Lemma dec_val_pad3 : forall n, dec_val 0 (pad3 n) = n.
Proof.
  intros n. unfold pad3, nat_to_dec. rewrite dec_val_zeros, dec_val_dec_aux by lia.
  reflexivity.
Qed.

Lemma append_cancel_l : forall p a b, p ^^ a = p ^^ b -> a = b.
Proof.
  induction p as [|c p IH]; intros a b H; [exact H|].
  injection H as H. exact (IH a b H).
Qed.

Lemma task_id_inj : forall m n, "task_" ^^ pad3 m = "task_" ^^ pad3 n -> m = n.
Proof.
  intros m n H. apply append_cancel_l in H.
  rewrite <- (dec_val_pad3 m), <- (dec_val_pad3 n), H. reflexivity.
Qed.

Lemma plan_task_ok : forall t o x o1,
  plan_task t o = (Ok x, o1) ->
  t_id x = "task_" ^^ pad3 (S (o_counter o)) /\
  o1 = mkOrch (o_state o) (o_files o) (S (o_counter o)) (o_calls o) /\
  t_status x = PENDING /\ t_result x = None.
Proof.
  intros t o x o1 H. unfold plan_task, mbind, generate_task_id, lift, ret in H.
  cbn [o_state o_files o_counter o_calls] in H.
  destruct (let* v := get_default t "agent" (JStr "coder") in AgentType_of v); [|discriminate].
  destruct (get_default t "task" (JStr "")); [|discriminate].
  destruct (get_default t "context_files" (JList [])); [|discriminate].
  destruct (get_default t "depends_on" (JList [])); [|discriminate].
  injection H as <- <-. auto.
Qed.

Lemma plan_tasks_ok : forall l o ts o',
  plan_tasks l o = (Ok ts, o') ->
  map t_id ts = map (fun n => "task_" ^^ pad3 n) (seq (S (o_counter o)) (List.length l)) /\
  o' = mkOrch (o_state o) (o_files o) (o_counter o + List.length l) (o_calls o) /\
  Forall (fun t => t_status t = PENDING /\ t_result t = None) ts.
Proof.
  induction l as [|t l IH]; intros o ts o' H.
  - cbn in H. injection H as <- <-. rewrite Nat.add_0_r. destruct o. auto.
  - cbn [plan_tasks] in H. unfold mbind at 1 in H.
    destruct (plan_task t o) as [[x|e] o1] eqn:Ex; [|discriminate].
    destruct (plan_task_ok t o x o1 Ex) as [Hid [-> [Hst Hr]]].
    unfold mbind at 1 in H.
    destruct (plan_tasks l _) as [[xs|e] o2] eqn:Exs; [|discriminate].
    unfold ret in H. injection H as <- <-.
    destruct (IH _ xs o2 Exs) as [Hids [-> Hf]]. cbn [o_state o_files o_counter o_calls].
    split; [|split].
    + cbn [map List.length seq]. rewrite Hid, Hids. reflexivity.
    + f_equal. cbn [List.length]. lia.
    + constructor; [split|]; assumption.
Qed.

Lemma NoDup_map_inj : forall (A B : Type) (f : A -> B) l,
  (forall x y, f x = f y -> x = y) -> NoDup l -> NoDup (map f l).
Proof.
  intros A B f l Hf Hl. induction Hl as [|x l Hx Hl IH]; cbn; constructor; [|exact IH].
  intros Hin. apply in_map_iff in Hin as [y [Hy Hin]]. apply Hf in Hy. subst. contradiction.
Qed.

(** X15 ([plan_feature] with [_generate_task_id]).  A task list the planner
    reads without an exception gets the ids [task_<c+1>], ..., [task_<c+n>]
    (zero-padded to three digits) drawn from the counter [c], which advances
    by [n]; the ids are pairwise distinct, every task starts pending with no
    Result, and nothing else of the orchestrator changes. *)
Theorem plan_tasks_fresh_ids : forall l o ts o',
  plan_tasks l o = (Ok ts, o') ->
  map t_id ts = map (fun n => "task_" ^^ pad3 n) (seq (S (o_counter o)) (List.length l)) /\
  NoDup (map t_id ts) /\
  o' = mkOrch (o_state o) (o_files o) (o_counter o + List.length l) (o_calls o) /\
  Forall (fun t => t_status t = PENDING /\ t_result t = None) ts.
Proof.
  intros l o ts o' H. destruct (plan_tasks_ok l o ts o' H) as [Hids [Ho Hf]].
  split; [exact Hids|]. split; [|split; assumption].
  rewrite Hids. apply NoDup_map_inj; [exact task_id_inj | apply seq_NoDup].
Qed.

(** *** [execute_plan]: the [running] status *)

Lemma invoke_agent_raise_keeps : forall now ag a t cf addl o e o',
  invoke_agent now ag a t cf addl o = (Raise e, o') ->
  o_state o' = o_state o /\ o_files o' = o_files o.
Proof.
  intros now ag a t cf addl o e o' H. unfold invoke_agent in H.
  destruct (registered a); cbn [negb] in H; [|injection H as _ <-; auto].
  destruct t as [| | |t| |]; try (injection H as _ <-; auto; fail).
  destruct (o_state o) as [st|] eqn:Hs; cbn [o_state] in H; [|discriminate].
  destruct (to_summary_string _); [discriminate|].
  injection H as _ <-. cbn. auto.
Qed.

Lemma nth_error_update_nth_eq : forall A (f : A -> A) l i,
  nth_error (update_nth i f l) i = option_map f (nth_error l i).
Proof.
  intros A f l. induction l as [|x l IH]; intros [|i]; cbn; auto.
Qed.

Lemma update_nth_update_nth : forall A (f g : A -> A) l i,
  update_nth i g (update_nth i f l) = update_nth i (fun x => g (f x)) l.
Proof.
  intros A f g l. induction l as [|x l IH]; intros [|i]; cbn; try rewrite IH; reflexivity.
Qed.

Lemma forallb_update_nth : forall A (p : A -> bool) f l i,
  (forall x, p (f x) = true) -> forallb p l = true -> forallb p (update_nth i f l) = true.
Proof.
  intros A p f l. induction l as [|x l IH]; intros [|i] Hf Hl; cbn in *; auto.
  - rewrite Hf. apply andb_true_iff in Hl as [_ Hl]. exact Hl.
  - apply andb_true_iff in Hl as [Hx Hl]. rewrite Hx. cbn. apply IH; assumption.
Qed.

(** X16 ([execute_plan]).  A pending task whose dependencies are met is
    marked [running] and saved before the agent runs; when the rest of the
    iteration raises (an unregistered agent kind, a description that is
    not a string, a malformed context list), the exception leaves the task
    [running], in memory and in its state file.  A [running] task is never
    picked up again, as the loop only starts pending ones. *)
Theorem exec_task_raise_leaves_running : forall now ag i results o st task e o',
  o_state o = Some st ->
  nth_error (tasks st) i = Some task ->
  deps_met (tasks st) task = Ok true ->
  t_status task = PENDING ->
  exec_task now ag i results o = (Raise e, o') ->
  exists st', o_state o' = Some st' /\
    option_map t_status (nth_error (tasks st') i) = Some RUNNING /\
    dict_lookup (o_files o') (session_id st) = Some (swarm_to_dict st').
Proof.
  intros now ag i results o st task e o' Hs Hi Hd Hp H.
  unfold exec_task, mbind at 1, get_orch in H. rewrite Hs, Hi in H.
  unfold mbind at 1, lift in H. rewrite Hd in H. cbn [negb] in H.
  rewrite Hp in H. cbn [status_eqb status_value String.eqb Ascii.eqb Bool.eqb negb] in H.
  cbn [mbind modify_state save save_state with_state o_state o_files o_counter o_calls
       option_map get_orch lift ret] in H.
  rewrite Hs in H.
  cbn [mbind modify_state save save_state with_state o_state o_files o_counter o_calls
       option_map get_orch lift ret] in H.
  match type of H with context [mbind (invoke_agent _ _ _ _ _ _) _ ?x] => set (o1 := x) in H end.
  assert (Goal1 : exists st', o_state o1 = Some st' /\
     option_map t_status (nth_error (tasks st') i) = Some RUNNING /\
     dict_lookup (o_files o1) (session_id st) = Some (swarm_to_dict st')).
  { eexists. split; [reflexivity|]. split.
    - cbn [set_updated set_tasks tasks]. rewrite nth_error_update_nth_eq, Hi. reflexivity.
    - cbn [o_files o1]. apply dict_lookup_set. }
  clearbody o1.
  destruct (completed_files _); [|injection H as _ <-; exact Goal1].
  destruct (py_add _ _) as [a0|]; [|injection H as _ <-; exact Goal1].
  destruct (match a0 with JList l => py_set_list l | _ => Raise TypeError end);
    [|injection H as _ <-; exact Goal1].
  unfold mbind at 1 in H.
  destruct (invoke_agent now ag _ _ _ None o1) as [[r|e'] o2] eqn:Ei.
  - unfold mbind, modify_state, save, ret in H. discriminate.
  - injection H as _ <-. destruct (invoke_agent_raise_keeps _ _ _ _ _ _ _ _ _ Ei) as [E1 E2].
    rewrite E1, E2. exact Goal1.
Qed.

Lemma final_status_not_running : forall r, status_eqb (final_status r) RUNNING = false.
Proof.
  intros r. unfold final_status. destruct (truthy (ar_blocked r)); [reflexivity|].
  destruct (ar_success r); reflexivity.
Qed.

Lemma exec_task_ok_no_running : forall now ag j results o st r o',
  o_state o = Some st -> no_running (tasks st) = true ->
  exec_task now ag j results o = (Ok r, o') ->
  exists st', o_state o' = Some st' /\ no_running (tasks st') = true.
Proof.
  intros now ag j results o st r o' Hs Hn H.
  unfold exec_task, mbind at 1, get_orch in H. rewrite Hs in H.
  destruct (nth_error (tasks st) j) as [task|] eqn:Hj;
    [|injection H as _ <-; exists st; auto].
  unfold mbind at 1, lift in H.
  destruct (deps_met (tasks st) task) as [[|]|e]; cbn [negb] in H;
    [| injection H as _ <-; exists st; auto | discriminate].
  destruct (status_eqb (t_status task) PENDING); cbn [negb] in H;
    [|injection H as _ <-; exists st; auto].
  cbn [mbind modify_state save save_state with_state o_state o_files o_counter o_calls
       option_map get_orch lift ret] in H.
  rewrite Hs in H.
  cbn [mbind modify_state save save_state with_state o_state o_files o_counter o_calls
       option_map get_orch lift ret] in H.
  match type of H with context [mbind (invoke_agent _ _ _ _ _ _) _ ?x] => set (o1 := x) in H end.
  assert (Hs1 : o_state o1 =
     Some (set_updated now (set_tasks (update_nth j (set_status RUNNING) (tasks st)) st)))
    by reflexivity.
  clearbody o1.
  destruct (completed_files _); [|discriminate].
  destruct (py_add _ _) as [a0|]; [|discriminate].
  destruct (match a0 with JList l => py_set_list l | _ => Raise TypeError end) as [files|]; [|discriminate].
  unfold mbind at 1 in H.
  destruct (invoke_agent_tasks now ag (t_agent_type task) (t_description task)
              (Some (JList files)) None o1 _ Hs1) as [st2 [Hs2 Ht2]].
  destruct (invoke_agent now ag _ _ _ None o1) as [[res0|e'] o2] eqn:Ei; [|discriminate].
  cbn [snd] in Hs2.
  unfold mbind, modify_state, save, ret in H. cbn [o_state with_state] in H.
  rewrite Hs2 in H. cbn [option_map save_state o_state] in H.
  injection H as _ <-. eexists. split; [reflexivity|].
  cbn [set_updated set_tasks tasks]. rewrite Ht2. cbn [set_updated set_tasks tasks].
  rewrite update_nth_update_nth. apply forallb_update_nth; [|exact Hn].
  intros x. cbn [set_status set_result t_status]. rewrite final_status_not_running. reflexivity.
Qed.

Lemma exec_tasks_ok_no_running : forall now ag idx results o st r o',
  o_state o = Some st -> no_running (tasks st) = true ->
  exec_tasks now ag idx results o = (Ok r, o') ->
  exists st', o_state o' = Some st' /\ no_running (tasks st') = true.
Proof.
  intros now ag idx. induction idx as [|j idx IH]; intros results o st r o' Hs Hn H.
  - cbn in H. injection H as _ <-. exists st. auto.
  - cbn [exec_tasks] in H. unfold mbind in H.
    destruct (exec_task now ag j results o) as [[r1|e] o1] eqn:E; [|discriminate].
    destruct (exec_task_ok_no_running now ag j results o st r1 o1 Hs Hn E) as [st1 [Hs1 Hn1]].
    exact (IH r1 o1 st1 r o' Hs1 Hn1 H).
Qed.

(** X17 ([execute_plan]).  A pass that returns normally, started with no
    task [running], leaves no task [running]: every task it starts ends
    the pass [completed], [failed] or [blocked]. *)
Theorem execute_plan_ok_no_running : forall now ag o st results o',
  o_state o = Some st -> no_running (tasks st) = true ->
  execute_plan now ag o = (Ok results, o') ->
  exists st', o_state o' = Some st' /\ no_running (tasks st') = true.
Proof.
  intros now ag o st results o' Hs Hn H.
  unfold execute_plan, mbind at 1, get_orch in H. rewrite Hs in H.
  destruct (tasks st) eqn:Ht; [discriminate|]. rewrite <- Ht in H, Hn.
  exact (exec_tasks_ok_no_running now ag _ [] o st results o' Hs Hn H).
Qed.

(** *** [run_pipeline]: the stages it invokes *)



(** *** [start_session] and [resume_session] *)

(** X19 ([start_session], [_save_state], [resume_session]).  A session just
    started is on disk under the id [start_session] returns, and an
    orchestrator that resumes that id (with its own counter and history)
    gets back exactly the session the first one holds. *)
Theorem start_session_resumable : forall now stamp fd o c calls,
  let o1 := snd (start_session now stamp fd o) in
  fst (start_session now stamp fd o) = Ok stamp /\
  resume_session stamp (mkOrch None (o_files o1) c calls) =
    (Ok true, mkOrch (o_state o1) (o_files o1) c calls).
Proof.
  intros now stamp fd o c calls. cbv zeta. split; [reflexivity|].
  unfold resume_session, load_state, start_session, save_state.
  cbn [snd o_state o_files with_state set_updated session_id].
  rewrite dict_lookup_set. rewrite swarm_roundtrip_forgets_results. reflexivity.
Qed.

(** *** [plan_feature]: the plan it returns is the plan it installs *)

Lemma pres_generate : preserves has_session generate_task_id.
Proof. intros o Ho. exact Ho. Qed.

Lemma pres_try_except : forall A (m h : M A),
  preserves has_session m -> preserves has_session h -> preserves has_session (try_except m h).
Proof.
  intros A m h Hm Hh o Ho. unfold try_except.
  specialize (Hm o Ho). destruct (m o) as [[a|e] o1]; [exact Hm | exact (Hh o1 Hm)].
Qed.

Lemma pres_plan_tasks : forall l, preserves has_session (plan_tasks l).
Proof.
  induction l as [|t l IH]; cbn [plan_tasks]; [apply pres_ret|].
  apply pres_bind; [|intros x; apply pres_bind; [exact IH | intros xs; apply pres_ret]].
  unfold plan_task.
  apply pres_bind; [apply pres_generate|intros id].
  repeat (apply pres_bind; [apply pres_lift|intros ?]). apply pres_ret.
Qed.

Lemma pres_plan_parse : forall tm fd summary,
  preserves has_session (try_except (parse_plan tm summary) (fallback_plan fd)).
Proof.
  intros tm fd summary. apply pres_try_except.
  - unfold parse_plan. destruct summary; try apply pres_throw.
    destruct (tm _) as [[l|]|]; [apply pres_plan_tasks | apply pres_throw | apply pres_ret].
  - unfold fallback_plan.
    repeat (apply pres_bind; [apply pres_generate|intros ?]). apply pres_ret.
Qed.

(** X20 ([plan_feature]).  A call that returns a non-empty plan has
    installed exactly that plan as the session's task list and saved the
    session: the state file under the session id holds the session as the
    orchestrator now has it. *)
Theorem plan_feature_installs : forall now stamp ag tm fd o ts o',
  plan_feature now stamp ag tm fd o = (Ok ts, o') -> ts <> [] ->
  exists st, o_state o' = Some st /\ tasks st = ts /\
             dict_lookup (o_files o') (session_id st) = Some (swarm_to_dict st).
Proof.
  intros now stamp ag tm fd o ts o' H Hne.
  unfold plan_feature, mbind at 1, get_orch in H. cbv beta iota in H.
  destruct (o_state o) as [s0|] eqn:Hs0;
    [unfold mbind at 1, ret in H | unfold mbind at 1, mbind at 1, start_session, ret in H];
    cbv beta iota in H;
    match type of H with
    | context [mbind (invoke_agent ?n ?g ?a ?t ?c ?d) _ ?x] =>
        set (o1 := x) in H; assert (Hx : has_session o1)
    end.
  1: exists s0; exact Hs0.
  2: eexists; unfold o1, save_state; reflexivity.
  all: clearbody o1; destruct Hx as [st1 Hs1]; unfold mbind at 1 in H;
    destruct (invoke_agent_tasks now ag ARCHITECT
                (JStr ("Plan the implementation for:" ^^ nl ^^ nl ^^ fd ^^ nl ^^ nl ^^
                  "Break this down into discrete tasks for: coder, reviewer, security, tester agents."))
                None None o1 st1 Hs1) as [st2 [Hs2 _]];
    destruct (invoke_agent now ag ARCHITECT _ None None o1) as [[r|e] o2];
    [|discriminate]; cbn [snd] in Hs2;
    idtac.
  all: destruct (ar_success r); cbn [negb] in H; cbv beta iota in H.
  2, 4: injection H as <- _; contradiction.
  all: unfold mbind at 1, modify_state in H; cbv beta iota in H;
    match type of H with
    | context [mbind (try_except ?m ?h) _ ?x] =>
        pose proof (pres_plan_parse tm fd (ar_summary r) x) as Hx3;
        unfold mbind at 1 in H;
        destruct (try_except m h x) as [[ts'|e] o4]; [|discriminate]
    end.
  all: cbn [snd] in Hx3; destruct Hx3 as [st4 Hs4];
    [cbn [o_state with_state]; rewrite Hs2; eexists; reflexivity|].
  all: unfold mbind, modify_state, save in H; cbv beta iota in H.
  all: cbn [o_state with_state] in H; rewrite Hs4 in H; cbn [option_map save_state o_state] in H.
  all: injection H as <- <-; eexists; split; [reflexivity|]; split; [reflexivity|].
  all: cbn [o_files]; apply dict_lookup_set.
Qed.

(** *** Witnesses of the further properties *)

Lemma parse_output_has_all_keys_witness :
  In "blocked" ["summary"; "files_changed"; "files_created"; "issues"; "suggestions";
                "blocked"; "block_reason"] /\
  dict_get (parse_output blocked_only_seen blocked_only_output) "blocked" <> None.
Proof.
  split; [simpl; auto 10|].
  apply (parse_output_has_all_keys blocked_only_seen blocked_only_output "blocked").
  simpl; auto 10.
Defined.


Lemma parse_output_summary_block_witness :
  rc_loads blocked_only_seen = None /\ rc_summary_block blocked_only_seen = Some "blocked: yes" /\
  dict_get (parse_output blocked_only_seen blocked_only_output) "summary"
    = Some (JStr "blocked: yes").
Proof.
  split; [reflexivity|]. split; [reflexivity|].
  apply parse_output_summary_block; [reflexivity | left; reflexivity | reflexivity].
Defined.

Lemma json_block_string_blocked_witness :
  rc_json_block string_blocked_seen
    = Some (Some [("blocked", JStr "waiting for API credentials")]) /\
  ar_blocked (base_invoke CODER "20261019_120000_abcdef" 0 (Exited string_blocked_output 0)
                string_blocked_seen) = JStr "waiting for API credentials" /\
  ar_success (base_invoke CODER "20261019_120000_abcdef" 0 (Exited string_blocked_output 0)
                string_blocked_seen) = false.
Proof.
  split; [reflexivity|].
  apply (json_block_string_blocked CODER "20261019_120000_abcdef" 0 (Exited string_blocked_output 0)
           string_blocked_seen [("blocked", JStr "waiting for API credentials")]
           "waiting for API credentials");
    [reflexivity | reflexivity | constructor; [simpl; tauto | constructor] | reflexivity
    | discriminate].
Defined.

Lemma cli_result_not_blocked_witness :
  dict_get_default cli_ok_raw "subtype" (JStr "") = JStr "success" /\
  ar_blocked (base_invoke CODER "20261019_120000_abcdef" 0 (Exited "done" 0)
                (mkRecognised (Some (JObj cli_ok_raw)) None None)) = JBool false /\
  ar_block_reason (base_invoke CODER "20261019_120000_abcdef" 0 (Exited "done" 0)
                     (mkRecognised (Some (JObj cli_ok_raw)) None None)) = JNull /\
  ar_success (base_invoke CODER "20261019_120000_abcdef" 0 (Exited "done" 0)
                (mkRecognised (Some (JObj cli_ok_raw)) None None))
    = snd (invoke_background (Exited "done" 0)).
Proof.
  split; [reflexivity|].
  apply (cli_result_not_blocked CODER "20261019_120000_abcdef" 0 (Exited "done" 0)
           (mkRecognised (Some (JObj cli_ok_raw)) None None) cli_ok_raw);
    [reflexivity | reflexivity | vm_compute; discriminate | vm_compute; discriminate].
Defined.

Lemma cli_error_blocks_witness :
  truthy (ar_blocked (base_invoke CODER "20261019_120000_abcdef" 0 (Exited "" 0)
                        (mkRecognised (Some (JObj cli_max_turns_raw)) None None))) = true /\
  ar_success (base_invoke CODER "20261019_120000_abcdef" 0 (Exited "" 0)
                (mkRecognised (Some (JObj cli_max_turns_raw)) None None)) = false /\
  (dict_get_default cli_max_turns_raw "subtype" (JStr "") = JStr "error_max_turns" ->
   ar_block_reason (base_invoke CODER "20261019_120000_abcdef" 0 (Exited "" 0)
                      (mkRecognised (Some (JObj cli_max_turns_raw)) None None))
   = JStr "Max turns reached - task may be too complex").
Proof.
  apply (cli_error_blocks CODER "20261019_120000_abcdef" 0 (Exited "" 0)
           (mkRecognised (Some (JObj cli_max_turns_raw)) None None) cli_max_turns_raw);
    [reflexivity | reflexivity | left; reflexivity].
Defined.

Lemma summary_string_total_witness :
  ar_files_changed (plain_result CODER true ["limiter.go"]) = JList (map JStr ["limiter.go"]) /\
  exists s, to_summary_string (plain_result CODER true ["limiter.go"]) = Ok s.
Proof.
  split; [reflexivity|].
  apply summary_string_total; [right; exists ["limiter.go"]; reflexivity | left; reflexivity].
Defined.

Lemma list_sessions_sorted_witness :
  exists out, list_sessions session_docs = Ok out /\
    Permutation out (session_entries session_docs) /\
    Sorted (fun a b => key_lt (entry_updated a) (entry_updated b) = Ok false) out.
Proof.
  apply list_sessions_sorted. intros kv u Hin Hu. simpl in Hin.
  destruct Hin as [E|[E|[E|[]]]]; try discriminate E; injection E as <-;
    vm_compute in Hu; injection Hu as <-; eexists; reflexivity.
Defined.

Lemma detect_python_marker_witness :
  python_dir "requirements.txt" = Some (Some "flask") /\
  (detect_project_type python_dir = REACT_NATIVE \/ detect_project_type python_dir = PYTHON).
Proof.
  split; [reflexivity|].
  apply (detect_python_marker python_dir "requirements.txt");
    [simpl; auto 10 | intro E; vm_compute in E; discriminate E].
Defined.

Lemma detect_package_json_witness :
  rn_dir "package.json" = Some (Some "dependencies: React-Native 0.74") /\
  contains "react-native" (lower "dependencies: React-Native 0.74") = true /\
  (contains "react-native" (lower "dependencies: React-Native 0.74") = true ->
   detect_project_type rn_dir = REACT_NATIVE) /\
  In (detect_project_type rn_dir) [REACT_NATIVE; PYTHON; NODEJS].
Proof.
  split; [reflexivity|]. split; [vm_compute; reflexivity|].
  apply detect_package_json. reflexivity.
Defined.

Lemma spawned_settings_configured_witness :
  dict_lookup reviewer_config (agent_value REVIEWER) = Some (mkAgentConfigFields true None [] 30 None) /\
  ag_max_turns (spawned_settings reviewer_config REVIEWER) = JNum 30 /\
  ([] : list string) = [] /\
  ag_allowed_tools (spawned_settings reviewer_config REVIEWER)
    = JList (map JStr (class_allowed_tools REVIEWER)) /\
  ag_system_prompt (spawned_settings reviewer_config REVIEWER) = None.
Proof.
  split; [reflexivity|].
  destruct (spawned_settings_configured reviewer_config REVIEWER
              (mkAgentConfigFields true None [] 30 None)) as [H1 [H2 H3]];
    [reflexivity | discriminate|].
  split; [exact H1|]. split; [reflexivity|]. split; [apply H2; reflexivity | apply H3; reflexivity].
Defined.

Lemma spawned_settings_unconfigured_witness :
  dict_lookup reviewer_config (agent_value DEBUGGER) = None /\
  spawned_settings reviewer_config DEBUGGER =
    {| ag_system_prompt := None;
       ag_allowed_tools := JList (map JStr (class_allowed_tools DEBUGGER));
       ag_max_turns := JNum (class_max_turns DEBUGGER) |}.
Proof.
  split; [reflexivity|]. apply spawned_settings_unconfigured. reflexivity.
Defined.

Lemma plan_tasks_fresh_ids_witness :
  planner_run = (Ok planner_tasks, snd planner_run) /\
  map t_id planner_tasks = map (fun n => "task_" ^^ pad3 n) (seq 4 2) /\
  NoDup (map t_id planner_tasks) /\
  snd planner_run = mkOrch None [] 5 [] /\
  Forall (fun t => t_status t = PENDING /\ t_result t = None) planner_tasks.
Proof.
  assert (E : planner_run = (Ok planner_tasks, snd planner_run)) by (vm_compute; reflexivity).
  split; [exact E|].
  exact (plan_tasks_fresh_ids planner_entries (mkOrch None [] 3 []) planner_tasks
           (snd planner_run) E).
Defined.

Lemma exec_task_raise_leaves_running_witness :
  stuck_pass = (Raise ValueError, snd stuck_pass) /\
  exists st', o_state (snd stuck_pass) = Some st' /\
    option_map t_status (nth_error (tasks st') 0) = Some RUNNING /\
    dict_lookup (o_files (snd stuck_pass)) (session_id stuck_session) = Some (swarm_to_dict st').
Proof.
  assert (E : stuck_pass = (Raise ValueError, snd stuck_pass)) by (vm_compute; reflexivity).
  split; [exact E|].
  apply (exec_task_raise_leaves_running "NOW" ok_agent 0 [] stuck_orch stuck_session
           (mkTask "task_001" REFACTOR (JStr "tidy up") (JList []) (JList []) PENDING None)
           ValueError);
    [reflexivity | reflexivity | reflexivity | reflexivity | exact E].
Defined.

Lemma execute_plan_ok_no_running_witness :
  o_state planned = Some planned_session /\ no_running (tasks planned_session) = true /\
  execute_plan "NOW" ok_agent planned = (Ok plan_pass_results, snd plan_pass) /\
  exists st', o_state (snd plan_pass) = Some st' /\ no_running (tasks st') = true.
Proof.
  assert (E : execute_plan "NOW" ok_agent planned = (Ok plan_pass_results, snd plan_pass))
    by (vm_compute; reflexivity).
  assert (S : o_state planned = Some planned_session) by (vm_compute; reflexivity).
  assert (N : no_running (tasks planned_session) = true) by (vm_compute; reflexivity).
  split; [exact S|]. split; [exact N|]. split; [exact E|].
  exact (execute_plan_ok_no_running "NOW" ok_agent planned planned_session plan_pass_results
           (snd plan_pass) S N E).
Defined.

Lemma plan_feature_installs_witness :
  plan_feature "NOW" "20261019_120000" planner_agent plan_text_match "add rate limiting"
    (mkOrch None [] 0 []) = (Ok planned_tasks, snd planned_run) /\ planned_tasks <> [] /\
  exists st, o_state (snd planned_run) = Some st /\ tasks st = planned_tasks /\
             dict_lookup (o_files (snd planned_run)) (session_id st) = Some (swarm_to_dict st).
Proof.
  assert (E : plan_feature "NOW" "20261019_120000" planner_agent plan_text_match
                "add rate limiting" (mkOrch None [] 0 []) = (Ok planned_tasks, snd planned_run))
    by (vm_compute; reflexivity).
  assert (N : planned_tasks <> []) by (intro H; vm_compute in H; discriminate H).
  split; [exact E|]. split; [exact N|].
  exact (plan_feature_installs "NOW" "20261019_120000" planner_agent plan_text_match
           "add rate limiting" (mkOrch None [] 0 []) planned_tasks (snd planned_run) E N).
Defined.
